(** * DokuPrompt: repository content selection and structural extraction

    A shallow embedding of [app/services/ai_service.py]: the directory
    surveyor [get_repository_structure], the structural extractor
    [_extract_code_structure] and the content selector
    [extract_repository_content].

    Conventions of the embedding.
    - A Python [str] is a [string]; each character stands for one code
      point below 256.  [len] is [String.length].
    - A Python [int] is a [Z]; a [len(...)] result is a [nat].
    - The filesystem is read through [pathlib]: what the code observes of
      it (existence of the root, the items [rglob] yields and the error it
      may raise, the kind, [stat] size and text of each item) is an
      [fs_view], a function from the root path to the [walk] below it.
      The [OSError]s that [Path.exists()] re-raises are [stat_errors].
    - Effects (filesystem calls, [logger.error]) are collected in a list of
      [event]s returned next to each result. *)

From Stdlib Require Import String Ascii List ZArith Lia Bool Arith.
From Stdlib Require Import Sorting.Sorted Sorting.Permutation.
From Stdlib Require Import Structures.OrdersEx.
From Stdlib Require Import Numbers.DecimalString.
Import ListNotations.

Local Open Scope list_scope.
Local Open Scope string_scope.
Local Open Scope nat_scope.

(** ** Python string operations *)

Module PyStr.

(** The line feed, ['\n']. *)
Definition nl_char : ascii := ascii_of_nat 10.
Definition nl : string := String nl_char EmptyString.

(** [x in xs] for a list (or set) of strings. *)
Definition mem (x : string) (xs : list string) : bool :=
  existsb (String.eqb x) xs.

(** [s.startswith(p)]. *)
Definition startswith (s p : string) : bool := String.prefix p s.

(** [needle in hay] for two strings. *)
Fixpoint contains (hay needle : string) : bool :=
  String.prefix needle hay ||
  match hay with
  | EmptyString => false
  | String _ rest => contains rest needle
  end.

(** [str.isspace] on one code point below 256. *)
Definition is_space (c : ascii) : bool :=
  let n := nat_of_ascii c in
  ((9 <=? n) && (n <=? 13)) || ((28 <=? n) && (n <=? 32))
  || (n =? 133) || (n =? 160).

Fixpoint lstrip (s : string) : string :=
  match s with
  | EmptyString => EmptyString
  | String c rest => if is_space c then lstrip rest else s
  end.

Fixpoint rstrip (s : string) : string :=
  match s with
  | EmptyString => EmptyString
  | String c rest =>
      match rstrip rest with
      | EmptyString => if is_space c then EmptyString else String c EmptyString
      | r => String c r
      end
  end.

(** [s.strip()]. *)
Definition strip (s : string) : string := rstrip (lstrip s).

(** [str.lower] on one code point below 256: the ASCII capitals and the
    Latin-1 capitals (all of U+00C0..U+00DE but the multiplication sign). *)
Definition lower_char (c : ascii) : ascii :=
  let n := nat_of_ascii c in
  if ((65 <=? n) && (n <=? 90))
     || ((192 <=? n) && (n <=? 222) && negb (n =? 215))
  then ascii_of_nat (n + 32) else c.

Fixpoint lower (s : string) : string :=
  match s with
  | EmptyString => EmptyString
  | String c rest => String (lower_char c) (lower rest)
  end.

(** [s.split(sep)] for a one-character separator: never empty. *)
Fixpoint split (sep : ascii) (s : string) : list string :=
  match s with
  | EmptyString => [EmptyString]
  | String c rest =>
      if Ascii.eqb c sep then EmptyString :: split sep rest
      else match split sep rest with
           | [] => [String c EmptyString]
           | h :: t => String c h :: t
           end
  end.

(** [sep.join(xs)]. *)
Definition join (sep : string) (xs : list string) : string :=
  String.concat sep xs.

(** [s[:n]]. *)
Definition take (n : nat) (s : string) : string := String.substring 0 n s.

(** [s[1:]]. *)
Definition drop1 (s : string) : string :=
  match s with
  | EmptyString => EmptyString
  | String _ rest => rest
  end.

(** [str(n)] for an integer. *)
Definition of_Z (n : Z) : string := NilZero.string_of_int (Z.to_int n).

(** [s1 < s2]: code point order. *)
Definition lt (s1 s2 : string) : bool := String.ltb s1 s2.

End PyStr.

(** ** Module constants *)

Definition CODE_STRUCTURE_EXTRACTION_THRESHOLD : nat := 3000.
Definition MIN_EXTRACTED_CONTENT : nat := 100.
Definition TRUNCATE_LINES_HEAD : nat := 25.
Definition TRUNCATE_LINES_TAIL : nat := 25.

Definition SKIP_DIRECTORIES : list string :=
  [".git"; "node_modules"; "__pycache__"; "venv"; ".venv"; "dist"; "build";
   "target"; "bin"; "obj"].

(** ** The structural extractor *)

Definition py_prefixes : list string :=
  ["import "; "from "; "class "; "def "; "@"].

Definition js_prefixes : list string :=
  ["import "; "export "; "class "; "function "; "const "; "let "; "var ";
   "interface "; "type "].

Definition jvm_prefixes : list string :=
  ["import "; "package "; "class "; "interface "; "struct "; "enum ";
   "func "; "pub fn"; "impl "].

(** The test of each [for line in lines] loop: the stripped line starts
    with one of the prefixes. *)
Definition keyword_line (prefixes : list string) (line : string) : bool :=
  let stripped := PyStr.strip line in
  existsb (PyStr.startswith stripped) prefixes.

Definition truncated_marker : string :=
  PyStr.nl ++ "... (truncated for brevity)".

Definition omitted_marker : string :=
  PyStr.nl ++ "... (full implementation details omitted for brevity)".

Definition truncate_content (content : string) : string :=
  PyStr.take CODE_STRUCTURE_EXTRACTION_THRESHOLD content ++ truncated_marker.

(** The code after the [if]/[elif] chain. *)
Definition finish_extraction (content : string) (extracted_lines : list string)
  : string :=
  match extracted_lines with
  | [] => truncate_content content
  | _ =>
      let result := PyStr.join PyStr.nl extracted_lines in
      if String.length result <? MIN_EXTRACTED_CONTENT
      then truncate_content content
      else result ++ omitted_marker
  end.

Definition _extract_code_structure (content file_extension : string) : string :=
  let lines := PyStr.split PyStr.nl_char content in
  if String.length content <? CODE_STRUCTURE_EXTRACTION_THRESHOLD then content
  else if PyStr.mem file_extension [".py"] then
    finish_extraction content (filter (keyword_line py_prefixes) lines)
  else if PyStr.mem file_extension [".js"; ".jsx"; ".ts"; ".tsx"] then
    finish_extraction content (filter (keyword_line js_prefixes) lines)
  else if PyStr.mem file_extension [".java"; ".cs"; ".go"; ".rs"] then
    finish_extraction content (filter (keyword_line jvm_prefixes) lines)
  else if TRUNCATE_LINES_HEAD + TRUNCATE_LINES_TAIL <? List.length lines then
    finish_extraction content
      (firstn TRUNCATE_LINES_HEAD lines
       ++ ["..."; "# Content truncated for brevity"; "..."]
       ++ skipn (List.length lines - TRUNCATE_LINES_TAIL) lines)%list
  else content.

(** ** Paths ([pathlib] on POSIX) *)

Module PyPath.

Definition slash : ascii := "/"%char.

(** The root of [Path(s)]: exactly two leading slashes are kept, any
    other number of them is one. *)
Definition root_of (s : string) : list string :=
  if PyStr.startswith s "///" then ["/"]
  else if PyStr.startswith s "//" then ["//"]
  else if PyStr.startswith s "/" then ["/"]
  else [].

Definition is_component (c : string) : bool :=
  negb (String.eqb c "") && negb (String.eqb c ".").

(** [Path(s).parts]: the root, then the components that are neither
    empty nor ["."]. *)
Definition parts (s : string) : list string :=
  (root_of s ++ filter is_component (PyStr.split slash s))%list.

(** [str(p)] for the path with parts [ps]. *)
Definition to_str (ps : list string) : string :=
  match ps with
  | [] => "."
  | p :: rest =>
      if PyStr.startswith p "/" then p ++ PyStr.join "/" rest
      else PyStr.join "/" ps
  end.

(** [name.rfind('.')], [None] for -1. *)
Fixpoint rfind_dot (name : string) : option nat :=
  match name with
  | EmptyString => None
  | String c rest =>
      match rfind_dot rest with
      | Some i => Some (S i)
      | None => if Ascii.eqb c "."%char then Some 0 else None
      end
  end.

(** [PurePath.suffix], from the name. *)
Definition suffix_of (name : string) : string :=
  match rfind_dot name with
  | Some i =>
      if (0 <? i) && (i <? String.length name - 1)
      then String.substring i (String.length name - i) name
      else ""
  | None => ""
  end.

End PyPath.

(** ** What the code observes of the filesystem *)

Inductive node_kind : Type := KFile | KDir | KOther.

(** One path yielded by [repo_path.rglob("*")].  [rel_parts] are its
    components below the root (never empty for a path [rglob] yields);
    [kind] answers [is_file()] and [is_dir()]; [st_size] is
    [stat().st_size], [None] when [stat] raises; [text] is the decoded
    text [open(...).read()] would return in full, or the message of the
    exception that [open] raises (an I/O error of [read] is not told
    apart from it). *)
Record item : Type := mk_item {
  rel_parts : list string;
  kind : node_kind;
  st_size : option Z;
  text : string + string
}.

(** One iteration of [rglob]: the items yielded, then the exception that
    ends the iteration, if any. *)
Record walk : Type := mk_walk {
  yielded : list item;
  raised : option string
}.

(** The filesystem: [None] for a path that does not exist, that is, one
    for which [Path.exists()] answers [False]. *)
Definition fs_view : Type := string -> option walk.

(** [Path(path).exists()] does not always answer: it returns [False] when
    [stat] fails with ENOENT, ENOTDIR, EBADF or ELOOP and re-raises any
    other [OSError] (a name too long, a parent that may not be searched).
    [errors path] is the message of the error re-raised for [path], [None]
    when [exists()] answers. *)
Definition stat_errors : Type := string -> option string.

Inductive event : Type :=
| EvExists (path : string)        (* Path(path).exists() *)
| EvWalk (path : string)          (* Path(path).rglob("*") *)
| EvStat (it : item)              (* it.stat() *)
| EvRead (it : item)              (* open(it).read(max_file_size) *)
| EvLog (message : string).       (* logger.error(message) *)

Section Items.

(** The parts of [repo_path]. *)
Variable repo_parts : list string.

(** [item.parts]. *)
Definition item_parts (it : item) : list string :=
  (repo_parts ++ rel_parts it)%list.

(** [item.name]. *)
Definition item_name (it : item) : string := last (rel_parts it) "".

(** [item.suffix]. *)
Definition item_suffix (it : item) : string :=
  PyPath.suffix_of (item_name it).

(** [str(item)]. *)
Definition item_str (it : item) : string := PyPath.to_str (item_parts it).

(** [str(item.relative_to(repo_path))]. *)
Definition relative_str (it : item) : string := PyPath.to_str (rel_parts it).

Definition is_file (it : item) : bool :=
  match kind it with KFile => true | _ => false end.

Definition is_dir (it : item) : bool :=
  match kind it with KDir => true | _ => false end.

End Items.

(** ** [list.sort]: a stable sort that compares keys with [<] only *)

Section Sort.

Context {A K : Type}.
Variable lt : K -> K -> bool.
Variable key : A -> K.

Fixpoint insert_sorted (x : A) (l : list A) : list A :=
  match l with
  | [] => [x]
  | y :: l' =>
      if lt (key y) (key x) then y :: insert_sorted x l' else x :: l
  end.

Definition list_sort (l : list A) : list A := fold_right insert_sorted [] l.

(** [x] may stand before [y]: the key of [y] is not below the key of [x]. *)
Definition key_le (x y : A) : Prop := lt (key y) (key x) = false.

End Sort.

(** ** The directory surveyor *)

Record structure : Type := mk_structure {
  root : string;
  files : list string;
  directories : list string
}.

(** The surveyor's exclusion rule: [".git" in item.parts]. *)
Definition surveyor_skips (repo_parts : list string) (it : item) : bool :=
  PyStr.mem ".git" (item_parts repo_parts it).

(** The [for item in repo_path.rglob("*")] loop of the surveyor, on the
    two lists it appends to. *)
Fixpoint survey_loop (repo_parts : list string) (max_depth : Z)
    (items : list item) (fl dl : list string) : list string * list string :=
  match items with
  | [] => (fl, dl)
  | it :: rest =>
      if surveyor_skips repo_parts it then
        survey_loop repo_parts max_depth rest fl dl
      else if (Z.of_nat (List.length (rel_parts it)) >? max_depth)%Z then
        survey_loop repo_parts max_depth rest fl dl
      else if is_file it then
        survey_loop repo_parts max_depth rest (fl ++ [relative_str it])%list dl
      else if is_dir it then
        survey_loop repo_parts max_depth rest fl (dl ++ [relative_str it])%list
      else survey_loop repo_parts max_depth rest fl dl
  end.

Definition get_repository_structure (fs : fs_view) (target_dir : string)
    (max_depth : Z) : structure * list event :=
  match fs target_dir with
  | None => (mk_structure target_dir [] [], [EvExists target_dir])
  | Some w =>
      let '(fl, dl) :=
        survey_loop (PyPath.parts target_dir) max_depth (yielded w) [] [] in
      match raised w with
      | None =>
          (mk_structure target_dir
             (list_sort PyStr.lt (fun s => s) fl)
             (list_sort PyStr.lt (fun s => s) dl),
           [EvExists target_dir; EvWalk target_dir])
      | Some e =>
          (mk_structure target_dir fl dl,
           [EvExists target_dir; EvWalk target_dir;
            EvLog ("Error reading repository structure: " ++ e)])
      end
  end.

(** ** The content selector *)

Definition code_extensions : list string :=
  [".py"; ".js"; ".jsx"; ".ts"; ".tsx"; ".java"; ".cpp"; ".c"; ".h";
   ".cs"; ".go"; ".rs"; ".rb"; ".php"; ".swift"; ".kt"; ".scala";
   ".md"; ".txt"; ".json"; ".yml"; ".yaml"; ".toml"; ".xml"].

Definition skip_files : list string :=
  ["package-lock.json"; "yarn.lock"; "poetry.lock"; "Pipfile.lock";
   ".gitignore"; ".dockerignore"; "LICENSE"; "CHANGELOG.md"].

Definition max_total_size : Z := 500000.

(** A collected file: the pair [(item, file_size)]. *)
Definition candidate : Type := (item * Z)%type.

(** [any(skip in item.parts for skip in SKIP_DIRECTORIES)]. *)
Definition in_skip_directory (repo_parts : list string) (it : item) : bool :=
  existsb (fun skip => PyStr.mem skip (item_parts repo_parts it))
          SKIP_DIRECTORIES.

(** [item.name in skip_files]. *)
Definition is_skip_file (it : item) : bool :=
  PyStr.mem (item_name it) skip_files.

(** The selector's two exclusion rules together. *)
Definition selector_skips (repo_parts : list string) (it : item) : bool :=
  in_skip_directory repo_parts it || is_skip_file it.

(** The first loop of the selector: the files collected, and the [stat]
    calls made. *)
Fixpoint collect_code_files (repo_parts : list string) (max_file_size : Z)
    (items : list item) : list candidate * list event :=
  match items with
  | [] => ([], [])
  | it :: rest =>
      let '(code_files, evs) :=
        collect_code_files repo_parts max_file_size rest in
      if in_skip_directory repo_parts it then (code_files, evs)
      else if is_skip_file it then (code_files, evs)
      else if is_file it && PyStr.mem (item_suffix it) code_extensions then
        match st_size it with
        | Some file_size =>
            if (file_size <=? max_file_size)%Z
            then ((it, file_size) :: code_files, EvStat it :: evs)
            else (code_files, EvStat it :: evs)
        | None => (code_files, EvStat it :: evs)
        end
      else (code_files, evs)
  end.

(** The sort key: [(tier, size_or_zero, lowercase_name)]. *)
Definition priority_key : Type := (Z * Z * string)%type.

Definition file_priority (repo_parts : list string) (file_tuple : candidate)
  : priority_key :=
  let '(file_path, file_size) := file_tuple in
  let name := PyStr.lower (item_name file_path) in
  let path_str := PyStr.lower (item_str repo_parts file_path) in
  if PyStr.contains name "readme" then (0, 0, name)%Z
  else if PyStr.mem name ["setup.py"; "pyproject.toml"; "package.json";
                          "cargo.toml"; "pom.xml"; "build.gradle"]
  then (1, 0, name)%Z
  else if PyStr.mem name ["main.py"; "index.js"; "index.ts"; "app.py";
                          "__init__.py"; "main.go"; "main.rs"]
  then (2, 0, name)%Z
  else if PyStr.contains path_str "src" || PyStr.contains path_str "app"
  then (3, file_size, name)%Z
  else if PyStr.mem (item_suffix file_path) [".md"; ".txt"]
  then (4, file_size, name)%Z
  else if PyStr.mem (item_suffix file_path)
            [".json"; ".yml"; ".yaml"; ".toml"; ".xml"]
  then (5, file_size, name)%Z
  else if PyStr.contains path_str "test" || PyStr.contains path_str "spec"
  then (6, file_size, name)%Z
  else (7, file_size, name)%Z.

(** [k1 < k2] on key tuples: the first component that differs decides. *)
Definition key_lt (k1 k2 : priority_key) : bool :=
  let '(t1, s1, n1) := k1 in
  let '(t2, s2, n2) := k2 in
  if (t1 =? t2)%Z then
    if (s1 =? s2)%Z then PyStr.lt n1 n2 else (s1 <? s2)%Z
  else (t1 <? t2)%Z.

Definition tier (k : priority_key) : Z := fst (fst k).

(** [code_files.sort(key=file_priority)]. *)
Definition sort_code_files (repo_parts : list string)
    (code_files : list candidate) : list candidate :=
  list_sort key_lt (file_priority repo_parts) code_files.

(** The selection loop, on [selected_files] and [total_size]. *)
Fixpoint select_loop (max_files : Z) (code_files : list candidate)
    (selected_files : list candidate) (total_size : Z)
  : list candidate * Z :=
  match code_files with
  | [] => (selected_files, total_size)
  | (file_path, file_size) :: rest =>
      if (Z.of_nat (List.length selected_files) >=? max_files)%Z then
        (selected_files, total_size)
      else if (total_size + file_size >? max_total_size)%Z then
        select_loop max_files rest selected_files total_size
      else
        select_loop max_files rest
          (selected_files ++ [(file_path, file_size)])%list
          (total_size + file_size)%Z
  end.

Definition select_files (max_files : Z) (code_files : list candidate)
  : list candidate * Z :=
  select_loop max_files code_files [] 0%Z.

(** The pieces appended to [content_parts]. *)
Inductive part : Type :=
| PTitle
| PStructureHeader
| PRoot (target_dir : string)
| PDirCount (n : nat)
| PDirName (dir_name : string)
| PCodeHeader (n : nat) (kilobytes : Z)
| PFileHeader (relative_path : string) (file_path : item)
| PFenceOpen (language : string)
| PText (body : string)
| PTruncated
| PFenceClose
| PReadError (e : string)
| PExtractError (e : string).

Definition backticks : string := "```".

Definition render_part (p : part) : string :=
  match p with
  | PTitle => "# Repository Structure and Content" ++ PyStr.nl
  | PStructureHeader => PyStr.nl ++ "## Directory Structure" ++ PyStr.nl
  | PRoot target_dir => "Root: " ++ target_dir ++ PyStr.nl
  | PDirCount n =>
      PyStr.nl ++ "Directories (" ++ PyStr.of_Z (Z.of_nat n) ++ "):" ++ PyStr.nl
  | PDirName dir_name => "  - " ++ dir_name ++ PyStr.nl
  | PCodeHeader n kilobytes =>
      PyStr.nl ++ "## Code Files (" ++ PyStr.of_Z (Z.of_nat n)
      ++ " files included, ~" ++ PyStr.of_Z kilobytes ++ "KB total)" ++ PyStr.nl
  | PFileHeader relative_path _ =>
      PyStr.nl ++ "### File: " ++ relative_path ++ PyStr.nl
  | PFenceOpen language => backticks ++ language ++ PyStr.nl
  | PText body => body
  | PTruncated => PyStr.nl ++ "... (truncated)"
  | PFenceClose => PyStr.nl ++ backticks ++ PyStr.nl
  | PReadError e => "Error reading file: " ++ e ++ PyStr.nl
  | PExtractError e => PyStr.nl ++ "Error extracting content: " ++ e ++ PyStr.nl
  end.

(** ["".join(content_parts)]. *)
Definition render (content_parts : list part) : string :=
  PyStr.join "" (map render_part content_parts).

(** The arguments [f.read(n)] accepts: those that fit a C [ssize_t] (64
    bits).  For any other [n] it raises [OverflowError]. *)
Definition fits_ssize (n : Z) : bool :=
  (- 2 ^ 63 <=? n)%Z && (n <=? 2 ^ 63 - 1)%Z.

Definition overflow_message : string :=
  "cannot fit 'int' into an index-sized integer".

(** [f.read(n)] on a file whose whole text is [s], for an [n] that fits. *)
Definition read_text (n : Z) (s : string) : string :=
  if (n <? 0)%Z then s else PyStr.take (Z.to_nat n) s.

(** The test that embeds a file verbatim. *)
Definition is_document (file_path : item) : bool :=
  PyStr.mem (item_suffix file_path)
    [".md"; ".txt"; ".json"; ".yml"; ".yaml"; ".toml"; ".xml"]
  || PyStr.contains (PyStr.lower (item_name file_path)) "readme".

(** The body of the last loop, for one selected file. *)
Definition file_section (max_file_size : Z) (file_tuple : candidate)
  : list part * list event :=
  let '(file_path, _) := file_tuple in
  let header := PFileHeader (relative_str file_path) file_path in
  match text file_path with
  | inr e => ([header; PReadError e], [EvRead file_path])
  | inl whole =>
      if negb (fits_ssize max_file_size) then
        ([header; PReadError overflow_message], [EvRead file_path])
      else
      let file_content := read_text max_file_size whole in
      let fence := PFenceOpen (PyStr.drop1 (item_suffix file_path)) in
      if is_document file_path then
        ((header :: fence :: PText file_content
          :: (if (Z.of_nat (String.length file_content) >=? max_file_size)%Z
              then [PTruncated] else []))
         ++ [PFenceClose], [EvRead file_path])%list
      else
        ([header; fence;
          PText (_extract_code_structure file_content (item_suffix file_path));
          PFenceClose], [EvRead file_path])
  end.

Fixpoint read_files (max_file_size : Z) (code_files : list candidate)
  : list part * list event :=
  match code_files with
  | [] => ([], [])
  | file_tuple :: rest =>
      let '(ps, evs) := file_section max_file_size file_tuple in
      let '(ps', evs') := read_files max_file_size rest in
      ((ps ++ ps')%list, (evs ++ evs')%list)
  end.

(** The header lines on the directory structure. *)
Definition structure_parts (target_dir : string) (s : structure) : list part :=
  ([PTitle; PStructureHeader; PRoot target_dir]
   ++ match directories s with
      | [] => []
      | _ => PDirCount (List.length (directories s))
             :: map PDirName (firstn 20 (directories s))
      end)%list.

(** The files the selector keeps on a walk that raised nothing. *)
Definition selection (repo_parts : list string) (max_files max_file_size : Z)
    (items : list item) : list candidate * Z :=
  select_files max_files
    (sort_code_files repo_parts
       (fst (collect_code_files repo_parts max_file_size items))).

(** The function below the test that the root exists. *)
Definition content_parts (fs : fs_view) (target_dir : string) (w : walk)
    (max_files max_file_size : Z) : list part * list event :=
  let repo_parts := PyPath.parts target_dir in
  let '(s, ev_survey) := get_repository_structure fs target_dir 2 in
  let head := structure_parts target_dir s in
  let '(_, ev_stat) :=
    collect_code_files repo_parts max_file_size (yielded w) in
  match raised w with
  | Some e =>
      ((head ++ [PExtractError e])%list,
       (ev_survey ++ EvWalk target_dir :: ev_stat
        ++ [EvLog ("Error extracting repository content: " ++ e)])%list)
  | None =>
      let '(code_files, total_size) :=
        selection repo_parts max_files max_file_size (yielded w) in
      let '(body, ev_read) := read_files max_file_size code_files in
      ((head ++ PCodeHeader (List.length code_files) (total_size / 1024)
        :: body)%list,
       (ev_survey ++ EvWalk target_dir :: ev_stat ++ ev_read)%list)
  end.

Definition not_found : string := "Repository directory not found.".

(** The parts and events of one call in which [exists()] at line 198
    answers; a missing root gives no parts. *)
Definition extract_run (fs : fs_view) (target_dir : string)
    (max_files max_file_size : Z) : option (list part) * list event :=
  match fs target_dir with
  | None => (None, [EvExists target_dir])
  | Some w =>
      let '(ps, evs) := content_parts fs target_dir w max_files max_file_size in
      (Some ps, EvExists target_dir :: evs)
  end.

Definition extract_repository_content (fs : fs_view) (target_dir : string)
    (max_files max_file_size : Z) : string :=
  match fst (extract_run fs target_dir max_files max_file_size) with
  | None => not_found
  | Some ps => render ps
  end.

(** How a call ends for the caller. *)
Inductive call_result : Type :=
| Returns (value : string)
| Raises (e : string).

(** The whole call.  The test [repo_path.exists()] at line 198 stands
    before the [try] of the function: an [OSError] it re-raises leaves the
    function. *)
Definition extract_call (errors : stat_errors) (fs : fs_view)
    (target_dir : string) (max_files max_file_size : Z)
  : call_result * list event :=
  match errors target_dir with
  | Some e => (Raises e, [EvExists target_dir])
  | None =>
      (Returns (extract_repository_content fs target_dir max_files max_file_size),
       snd (extract_run fs target_dir max_files max_file_size))
  end.

(** The sum of the sizes of a list of collected files. *)
Definition total_bytes (cs : list candidate) : Z :=
  fold_right (fun c acc => (snd c + acc)%Z) 0%Z cs.

(** The files that have a [### File:] section among the parts. *)
Fixpoint section_files (ps : list part) : list item :=
  match ps with
  | [] => []
  | PFileHeader _ file_path :: rest => file_path :: section_files rest
  | _ :: rest => section_files rest
  end.

(** The greedy selection in the words of the specification: scan the
    candidates in order with [n] files selected and [t] bytes taken so far;
    stop once [max_files] are selected; pass over a candidate that would
    push the total over the budget and go on scanning; take any other. *)
Inductive greedy (max_files : Z)
  : nat -> Z -> list candidate -> list candidate -> Prop :=
| greedy_end n t : greedy max_files n t [] []
| greedy_stop n t cs :
    (Z.of_nat n >= max_files)%Z -> greedy max_files n t cs []
| greedy_skip n t c cs sel :
    (Z.of_nat n < max_files)%Z ->
    (t + snd c > max_total_size)%Z ->
    greedy max_files n t cs sel ->
    greedy max_files n t (c :: cs) sel
| greedy_take n t c cs sel :
    (Z.of_nat n < max_files)%Z ->
    (t + snd c <= max_total_size)%Z ->
    greedy max_files (S n) (t + snd c) cs sel ->
    greedy max_files n t (c :: cs) (c :: sel).

(** The files with a [### File:] section in the value returned. *)
Definition file_sections (fs : fs_view) (target_dir : string)
    (max_files max_file_size : Z) : list item :=
  match fst (extract_run fs target_dir max_files max_file_size) with
  | None => []
  | Some ps => section_files ps
  end.

(** [a] sorts first: in no sorted list of candidates does [a] stand after [b]. *)
Definition sorts_first (repo_parts : list string) (a b : candidate) : Prop :=
  forall code_files l1 l2,
    sort_code_files repo_parts code_files = (l1 ++ b :: l2)%list -> ~ In a l2.

(** The lowercase name of a candidate, the last component of its key. *)
Definition lower_name (c : candidate) : string :=
  PyStr.lower (item_name (fst c)).

(** The items the surveyor's rule lets through. *)
Definition surveyor_keeps (repo_parts : list string) (it : item) : bool :=
  negb (surveyor_skips repo_parts it).

(** ** The large-file scenario of the specification *)

Module Scenario.

(** The stripped line starts with [prefix]. *)
Definition stripped_startswith (prefix line : string) : bool :=
  PyStr.startswith (PyStr.strip line) prefix.

Fixpoint no_newline (line : string) : bool :=
  match line with
  | EmptyString => true
  | String c rest => negb (Ascii.eqb c PyStr.nl_char) && no_newline rest
  end.

Definition count_lines (p : string -> bool) (lines : list string) : nat :=
  List.length (filter p lines).

(** An [import], [class] or [def] line. *)
Definition structural (line : string) : bool :=
  stripped_startswith "import " line
  || stripped_startswith "class " line
  || stripped_startswith "def " line.

(** A line that matches no keyword prefix of the [.py] family. *)
Definition filler (line : string) : bool :=
  negb (keyword_line py_prefixes line).

Definition structural_lines (lines : list string) : list string :=
  filter structural lines.

(** The content: 5000 bytes made of 3 [import] lines, 1 [class] line,
    2 [def] lines and 400 filler lines. *)
Definition large_python_content (lines : list string) : Prop :=
  forallb no_newline lines = true
  /\ count_lines (stripped_startswith "import ") lines = 3
  /\ count_lines (stripped_startswith "class ") lines = 1
  /\ count_lines (stripped_startswith "def ") lines = 2
  /\ count_lines filler lines = 400
  /\ List.length lines = 406
  /\ String.length (PyStr.join PyStr.nl lines) = 5000.

(** What the specification expects of the extractor on such content. *)
Definition expected_output (lines : list string) : string :=
  PyStr.join PyStr.nl (structural_lines lines) ++ omitted_marker.

Definition hashes (n : nat) : string :=
  string_of_list_ascii (repeat "#"%char n).

(** Structural lines of 148 bytes once joined. *)
Definition long_lines : list string :=
  (["import os"; "import sys"; "import json";
    "class RepositoryContentExtractor(BaseExtractor):";
    "    def extract(self, path, max_files, max_file_size):";
    "def main():"]
   ++ repeat (hashes 11) 399 ++ [hashes 63])%list.

(** Structural lines of 56 bytes once joined. *)
Definition short_lines : list string :=
  (["import os"; "import os"; "import os"; "class A:"; "def f():"; "def f():"]
   ++ repeat (hashes 11) 399 ++ [hashes 155])%list.

End Scenario.

(** [a <= b] on strings: lexicographic on code points, case-sensitive. *)
Definition str_le (a b : string) : Prop := String.leb a b = true.

(** ** A small repository, for concrete runs *)

Module Demo.

Definition file (ps : list string) (size : Z) (body : string) : item :=
  mk_item ps KFile (Some size) (inl body).

Definition dir (ps : list string) : item :=
  mk_item ps KDir (Some 4096%Z) (inr "Is a directory").

Definition repo_walk : walk :=
  mk_walk
    [file ["random.py"] 20 "x = 1";
     file ["README.md"] 30 "# hi";
     dir ["node_modules"];
     file ["node_modules"; "a.js"] 3 "a";
     file ["setup.py"] 10 "setup()";
     file ["main.py"] 12 "main()";
     dir ["pkg"];
     file ["pkg"; "LICENSE"] 3 "MIT";
     file ["big.py"] 20000 "..."]
    None.

(** The repository at [/tmp/repo], and a copy of it below a directory
    named [build]. *)
Definition fs : fs_view :=
  fun path =>
    if String.eqb path "/tmp/repo" then Some repo_walk
    else if String.eqb path "/home/build/repo" then Some repo_walk
    else None.

End Demo.

(** ** Paths and enumerations for the runs that go wrong *)

Module Cases.

(** A path whose last component is 300 bytes long. *)
Definition long_path : string :=
  "/tmp/" ++ string_of_list_ascii (repeat "a"%char 300).

(** [stat] refuses a component of more than 255 bytes with ENAMETOOLONG,
    which [exists()] re-raises. *)
Definition name_too_long : stat_errors :=
  fun path =>
    if existsb (fun c => 255 <? String.length c) (PyPath.parts path)
    then Some ("[Errno 36] File name too long: '" ++ path ++ "'")
    else None.

(** A tree with a readme in each of two directories, listed with [a]
    first and with [b] first. *)
Definition readme_a : item := Demo.file ["a"; "README.md"] 5 "A".
Definition readme_b : item := Demo.file ["b"; "README.md"] 5 "B".

Definition a_first : walk :=
  mk_walk [Demo.dir ["a"]; readme_a; Demo.dir ["b"]; readme_b] None.

Definition b_first : walk :=
  mk_walk [Demo.dir ["b"]; readme_b; Demo.dir ["a"]; readme_a] None.

(** The small repository, listed in the opposite order. *)
Definition reversed_fs : fs_view :=
  fun path =>
    if String.eqb path "/tmp/repo"
    then Some (mk_walk (rev (yielded Demo.repo_walk)) None)
    else None.

End Cases.

(** ** Views on a run, for the statements beyond the claims *)

(** The files opened and read, in order. *)
Fixpoint reads (evs : list event) : list item :=
  match evs with
  | [] => []
  | EvRead it :: rest => it :: reads rest
  | _ :: rest => reads rest
  end.

(** The [## Code Files] headers among the parts: the count of files and
    the kilobytes each announces. *)
Fixpoint code_headers (ps : list part) : list (nat * Z) :=
  match ps with
  | [] => []
  | PCodeHeader n kilobytes :: rest => (n, kilobytes) :: code_headers rest
  | _ :: rest => code_headers rest
  end.

(** The items the surveyor records: no [.git] component and no deeper
    than [max_depth]. *)
Definition surveyed (repo_parts : list string) (max_depth : Z) (it : item)
  : bool :=
  negb (surveyor_skips repo_parts it)
  && negb (Z.of_nat (List.length (rel_parts it)) >? max_depth)%Z.

(** The relative paths of the recorded files, in the order of the walk. *)
Definition surveyed_files (repo_parts : list string) (max_depth : Z)
    (items : list item) : list string :=
  map relative_str
    (filter (fun it => surveyed repo_parts max_depth it && is_file it) items).

(** The relative paths of the recorded directories, in the order of the
    walk. *)
Definition surveyed_directories (repo_parts : list string) (max_depth : Z)
    (items : list item) : list string :=
  map relative_str
    (filter (fun it => surveyed repo_parts max_depth it && is_dir it) items).

(** The keyword prefixes [_extract_code_structure] uses for an extension,
    [None] for an extension outside the three families. *)
Definition family_prefixes (file_extension : string) : option (list string) :=
  if PyStr.mem file_extension [".py"] then Some py_prefixes
  else if PyStr.mem file_extension [".js"; ".jsx"; ".ts"; ".tsx"]
  then Some js_prefixes
  else if PyStr.mem file_extension [".java"; ".cs"; ".go"; ".rs"]
  then Some jvm_prefixes
  else None.

(** ** The LLM call: [get_model] and [send_prompt] *)

Module Llm.

(** An exception, as the handler reads it: [type(e).__name__] and [str(e)]. *)
Record exn : Type := mk_exn {
  exception_type : string;
  error_message : string
}.

(** [Exception(message)]. *)
Definition Exception (message : string) : exn := mk_exn "Exception" message.

(** [ValueError(message)]. *)
Definition ValueError (message : string) : exn := mk_exn "ValueError" message.

(** The two variables read with [os.getenv]; [None] when unset. *)
Record environ : Type := mk_environ {
  MODEL_NAME : option string;
  ANTHROPIC_API_KEY : option string
}.

(** The arguments [get_model] passes to [ChatOpenAI]. *)
Record chat_model : Type := mk_chat_model {
  model : string;
  api_key : string;
  base_url : string;
  temperature : Z;
  request_timeout : Z;
  client_max_retries : Z
}.

(** What [llm.invoke(full_prompt)] followed by [response.content] gives:
    the content, or the exception raised. *)
Inductive reply : Type :=
| Content (content : string)
| Fails (e : exn).

(** The remote service: the reply to the call made by a client with a
    prompt on a given attempt. *)
Definition service : Type := chat_model -> string -> nat -> reply.

(** How a call of [send_prompt] ends. *)
Inductive outcome : Type :=
| Returned (content : string)
| Raised (e : exn).

Inductive llm_event : Type :=
| LlmLog (message : string)       (* logger.info / warning / error *)
| Sleep (seconds : Z)             (* time.sleep(seconds) *)
| Invoke (full_prompt : string).  (* llm.invoke(full_prompt) *)

Definition get_model (env : environ) : exn + chat_model :=
  match MODEL_NAME env with
  | None =>
      inl (ValueError
             "MODEL_NAME ist nicht gesetzt. Bitte in der .env-Datei eintragen.")
  | Some model_name =>
      if PyStr.startswith model_name "eu.anthropic" then
        match ANTHROPIC_API_KEY env with
        | None | Some EmptyString =>
            inl (ValueError
                   "ANTHROPIC_API_KEY ist nicht gesetzt. Bitte in der .env-Datei eintragen.")
        | Some key =>
            inr (mk_chat_model model_name key
                   "https://llm.srvext.ncoindev.net/v1" 0 300 2)
        end
      else inl (ValueError ("Unbekanntes Modell: " ++ model_name))
  end.

(** The test on a reply that looks like an HTML error page. *)
Definition is_error_page (content : string) : bool :=
  negb (String.eqb content "")
  && (PyStr.startswith (PyStr.strip content) "<"
      || PyStr.contains content "Gateway Time-out").

Definition gateway_error_msg : string :=
  "LLM gateway returned an error response (possibly timeout)".

Definition gateway_exception : exn :=
  Exception (gateway_error_msg
             ++ ". Please try again or reduce the repository size.").

Definition is_retryable (e : exn) : bool :=
  PyStr.contains (exception_type e) "Timeout"
  || PyStr.contains (PyStr.lower (error_message e)) "timeout"
  || PyStr.contains (error_message e) "504"
  || PyStr.contains (error_message e) "502"
  || PyStr.contains (error_message e) "503"
  || PyStr.contains (error_message e) "Gateway"
  || PyStr.contains (exception_type e) "InternalServerError".

Definition internal_error : exn :=
  Exception "LLM gateway internal error. The prompt may be too large or the service is unavailable. Try reducing repository size or try again later.".

Definition timed_out : exn :=
  Exception "LLM request timed out. The documentation generation is taking too long. Try reducing the repository size.".

Definition gateway_timeout : exn :=
  Exception "LLM gateway timeout (504). Try reducing the repository size or try again later.".

Definition gateway_unavailable : exn :=
  Exception "LLM gateway error. The service may be unavailable. Try again later.".

Definition all_retries_failed : exn :=
  Exception "LLM request failed after all retries".

(** The exception that leaves the handler when it does not retry: the
    [if]/[elif] chain, then the bare [raise]. *)
Definition raised_for (e : exn) : exn :=
  if PyStr.contains (exception_type e) "InternalServerError" then
    internal_error
  else if PyStr.contains (exception_type e) "Timeout"
          || PyStr.contains (PyStr.lower (error_message e)) "timeout" then
    timed_out
  else if PyStr.contains (error_message e) "<"
          && PyStr.contains (error_message e) ">" then
    if PyStr.contains (error_message e) "504"
       || PyStr.contains (error_message e) "Gateway Time-out"
    then gateway_timeout
    else gateway_unavailable
  else e.

(** ["(attempt {attempt + 1}/{max_retries})"] and the like. *)
Definition attempt_of (attempt : nat) (max_retries : Z) : string :=
  PyStr.of_Z (Z.of_nat attempt + 1) ++ "/" ++ PyStr.of_Z max_retries.

(** How one iteration of the loop ends: it leaves the function (a
    [return] or a [raise] that nothing catches), or it goes on to the next
    attempt with [last_exception] set.  Either way with the log lines it
    wrote after the call. *)
Inductive iteration : Type :=
| Leave (o : outcome) (logs : list llm_event)
| Continue (last_exception : exn) (logs : list llm_event).

(** The [except Exception as e] block. *)
Definition handler (max_retries : Z) (attempt : nat) (e : exn)
    (logs : list llm_event) : iteration :=
  let log := LlmLog ("Error invoking LLM (attempt "
                     ++ attempt_of attempt max_retries ++ "): "
                     ++ error_message e) in
  if (Z.of_nat attempt >=? max_retries - 1)%Z || negb (is_retryable e)
  then Leave (Raised (raised_for e)) (logs ++ [log])%list
  else Continue e (logs ++ [log])%list.

(** The body of the loop after the call, on the reply to the call. *)
Definition after_invoke (max_retries : Z) (attempt : nat) (r : reply)
  : iteration :=
  match r with
  | Content content =>
      if is_error_page content then
        let warning := LlmLog (gateway_error_msg ++ " on attempt "
                               ++ attempt_of attempt max_retries) in
        if (Z.of_nat attempt <? max_retries - 1)%Z
        then Continue gateway_exception [warning]
        else handler max_retries attempt gateway_exception [warning]
      else
        Leave (Returned content)
          (if 0 <? attempt
           then [LlmLog ("LLM request succeeded on attempt "
                         ++ PyStr.of_Z (Z.of_nat attempt + 1))]
           else [])
  | Fails e => handler max_retries attempt e []
  end.

(** The wait before the call, from the second attempt on. *)
Definition before_invoke (max_retries : Z) (attempt : nat) : list llm_event :=
  if 0 <? attempt then
    [LlmLog ("Retrying LLM request (attempt "
             ++ attempt_of attempt max_retries ++ ") after "
             ++ PyStr.of_Z (2 ^ Z.of_nat attempt) ++ "s...");
     Sleep (2 ^ Z.of_nat attempt)]
  else [].

(** The [for attempt in range(max_retries)] loop, with [remaining]
    iterations to go, and the two statements after it. *)
Fixpoint retry_loop (invoke : nat -> reply) (full_prompt : string)
    (max_retries : Z) (remaining attempt : nat) (last_exception : option exn)
  : outcome * list llm_event :=
  match remaining with
  | O =>
      match last_exception with
      | Some e => (Raised e, [])
      | None => (Raised all_retries_failed, [])
      end
  | S remaining' =>
      let called :=
        (before_invoke max_retries attempt ++ [Invoke full_prompt])%list in
      match after_invoke max_retries attempt (invoke attempt) with
      | Leave o logs => (o, (called ++ logs)%list)
      | Continue e logs =>
          let '(o, evs) :=
            retry_loop invoke full_prompt max_retries remaining' (S attempt)
              (Some e) in
          (o, (called ++ logs ++ evs)%list)
      end
  end.

Definition send_prompt (env : environ) (llm : service) (full_prompt : string)
    (max_retries : Z) : outcome * list llm_event :=
  match get_model env with
  | inl e => (Raised e, [])
  | inr client =>
      retry_loop (llm client full_prompt) full_prompt max_retries
        (Z.to_nat max_retries) 0 None
  end.

(** The number of calls made to the service. *)
Fixpoint invocations (evs : list llm_event) : nat :=
  match evs with
  | [] => 0
  | Invoke _ :: rest => S (invocations rest)
  | _ :: rest => invocations rest
  end.

(** The waits, in order. *)
Fixpoint sleeps (evs : list llm_event) : list Z :=
  match evs with
  | [] => []
  | Sleep seconds :: rest => seconds :: sleeps rest
  | _ :: rest => sleeps rest
  end.

(** A reply after which the loop tries again, when attempts are left: an
    error page, or a failure that counts as transient. *)
Definition asks_retry (r : reply) : bool :=
  match r with
  | Content content => is_error_page content
  | Fails e => is_retryable e
  end.

(** The exception the handler sees for a reply that is not a success. *)
Definition reply_exception (r : reply) : exn :=
  match r with
  | Content _ => gateway_exception
  | Fails e => e
  end.

(** How the function ends on a reply that ends it. *)
Definition settled_by (r : reply) : outcome :=
  match r with
  | Content content =>
      if is_error_page content then Raised (raised_for gateway_exception)
      else Returned content
  | Fails e => Raised (raised_for e)
  end.

(** The log lines an iteration wrote. *)
Definition iteration_logs (it : iteration) : list llm_event :=
  match it with
  | Leave _ logs => logs
  | Continue _ logs => logs
  end.

Definition is_log (ev : llm_event) : bool :=
  match ev with
  | LlmLog _ => true
  | _ => false
  end.

(** [2 ** attempt]. *)
Definition backoff (attempt : nat) : Z := 2 ^ Z.of_nat attempt.

(** An environment that names a model and a key. *)
Definition demo_env : environ :=
  mk_environ (Some "eu.anthropic.claude") (Some "secret").

(** A service that times out twice, then answers. *)
Definition flaky : service :=
  fun _ _ attempt =>
    if attempt <? 2 then Fails (mk_exn "APITimeoutError" "Request timed out.")
    else Content "# Documentation".

(** A service that always answers with an HTML error page. *)
Definition gateway_page : service :=
  fun _ _ _ => Content "<html><body>504 Gateway Time-out</body></html>".

(** A service that rejects the key. *)
Definition unauthorized : service :=
  fun _ _ _ => Fails (mk_exn "AuthenticationError" "Invalid API key").

End Llm.

(** * Facts *)

(** ** The order on strings *)

Module StrOrder.

Lemma compare_OT (a b : string) : String_as_OT.compare a b = String.compare a b.
Proof.
  revert b; induction a as [|x a IH]; intros [|y b]; simpl; trivial.
  all: rewrite IH.
  all: change (Ascii_as_OT.compare x y) with (Ascii.compare x y).
  all: now destruct (Ascii.compare x y).
Qed.

Lemma compare_refl (a : string) : String.compare a a = Eq.
Proof.
  rewrite <- compare_OT.
  destruct (String_as_OT.compare_spec a a) as [_|H|H]; trivial;
    now apply String_as_OT.lt_strorder in H.
Qed.

Lemma compare_lt_trans (a b c : string) :
  String.compare a b = Lt -> String.compare b c = Lt -> String.compare a c = Lt.
Proof.
  rewrite <- !compare_OT. intros H1 H2.
  destruct String_as_OT.lt_strorder as [_ Htrans].
  exact (Htrans a b c H1 H2).
Qed.

Lemma lt_irrefl (a : string) : PyStr.lt a a = false.
Proof. unfold PyStr.lt, String.ltb. now rewrite compare_refl. Qed.

Lemma lt_asym (a b : string) : PyStr.lt a b = true -> PyStr.lt b a = false.
Proof.
  unfold PyStr.lt, String.ltb. rewrite (String.compare_antisym b a).
  now destruct (String.compare a b).
Qed.

(** [a <= b] and [b <= c] give [a <= c], with [x <= y] read as "not [y < x]". *)
Lemma le_trans (a b c : string) :
  PyStr.lt b a = false -> PyStr.lt c b = false -> PyStr.lt c a = false.
Proof.
  unfold PyStr.lt, String.ltb.
  rewrite (String.compare_antisym b a), (String.compare_antisym c b),
          (String.compare_antisym c a).
  destruct (String.compare a b) eqn:Hab; simpl; try discriminate; intros _;
  destruct (String.compare b c) eqn:Hbc; simpl; try discriminate; intros _.
  - apply String.compare_eq_iff in Hab, Hbc; subst. now rewrite compare_refl.
  - apply String.compare_eq_iff in Hab; subst. now rewrite Hbc.
  - apply String.compare_eq_iff in Hbc; subst. now rewrite Hab.
  - now rewrite (compare_lt_trans _ _ _ Hab Hbc).
Qed.

End StrOrder.

(** ** The sort *)

Section SortFacts.

Context {A K : Type}.
Variable lt : K -> K -> bool.
Variable key : A -> K.

Local Abbreviation key_le := (key_le lt key).

Lemma insert_sorted_perm (x : A) (l : list A) :
  Permutation (insert_sorted lt key x l) (x :: l).
Proof.
  induction l as [|y l IH]; simpl; trivial.
  destruct (lt (key y) (key x)); trivial.
  rewrite IH. apply perm_swap.
Qed.

Lemma list_sort_perm (l : list A) : Permutation (list_sort lt key l) l.
Proof.
  induction l as [|x l IH]; simpl; trivial.
  rewrite insert_sorted_perm. now constructor.
Qed.

Lemma list_sort_In (l : list A) (x : A) : In x (list_sort lt key l) <-> In x l.
Proof.
  split; apply Permutation_in;
    [apply list_sort_perm | apply Permutation_sym, list_sort_perm].
Qed.

Lemma list_sort_length (l : list A) :
  List.length (list_sort lt key l) = List.length l.
Proof. apply Permutation_length, list_sort_perm. Qed.

Hypothesis lt_asym : forall a b, lt a b = true -> lt b a = false.
Hypothesis le_trans :
  forall a b c, lt b a = false -> lt c b = false -> lt c a = false.

Lemma insert_sorted_sorted (x : A) (l : list A) :
  StronglySorted key_le l -> StronglySorted key_le (insert_sorted lt key x l).
Proof.
  induction 1 as [|y l Hs IH Hy]; simpl.
  - repeat constructor.
  - destruct (lt (key y) (key x)) eqn:E.
    + constructor; trivial.
      rewrite Forall_forall in *. intros z Hz.
      apply (Permutation_in _ (insert_sorted_perm x l)) in Hz.
      destruct Hz as [<-|Hz]; [now apply lt_asym | now apply Hy].
    + constructor; [now constructor|].
      constructor; trivial.
      rewrite Forall_forall in *. intros z Hz.
      apply (le_trans (key x) (key y) (key z)); [exact E | now apply Hy].
Qed.

Lemma list_sort_sorted (l : list A) : StronglySorted key_le (list_sort lt key l).
Proof.
  induction l as [|x l IH]; simpl; [constructor | now apply insert_sorted_sorted].
Qed.

Lemma sorted_app_inv (l1 l2 : list A) (b : A) :
  StronglySorted key_le (l1 ++ b :: l2) -> Forall (key_le b) l2.
Proof.
  induction l1 as [|y l1 IH]; simpl; intros H; inversion H; subst; auto.
Qed.

(** In the sorted list, nothing with a key below the key of [b] stands
    after [b]. *)
Lemma list_sort_before (l l1 l2 : list A) (a b : A) :
  lt (key a) (key b) = true ->
  list_sort lt key l = (l1 ++ b :: l2)%list -> ~ In a l2.
Proof.
  intros Hlt E Hin.
  pose proof (list_sort_sorted l) as Hs. rewrite E in Hs.
  apply sorted_app_inv in Hs. rewrite Forall_forall in Hs.
  specialize (Hs a Hin). unfold key_le in Hs. congruence.
Qed.

End SortFacts.

(** ** Membership *)

Lemma mem_In (x : string) (xs : list string) : PyStr.mem x xs = true <-> In x xs.
Proof.
  unfold PyStr.mem. rewrite existsb_exists. split.
  - intros [y [Hy E]]. apply String.eqb_eq in E. now subst.
  - intros H. exists x. split; trivial. apply String.eqb_refl.
Qed.

(** ** The selection loop *)

Lemma total_bytes_app (l1 l2 : list candidate) :
  total_bytes (l1 ++ l2) = (total_bytes l1 + total_bytes l2)%Z.
Proof. induction l1 as [|c l1 IH]; simpl; [trivial | rewrite IH; lia]. Qed.

Lemma select_loop_greedy (max_files : Z) (cs acc : list candidate) (t : Z) :
  exists sel,
    select_loop max_files cs acc t = ((acc ++ sel)%list, (t + total_bytes sel)%Z)
    /\ greedy max_files (List.length acc) t cs sel.
Proof.
  revert acc t. induction cs as [|[file_path file_size] cs IH]; intros acc t; simpl.
  - exists []. rewrite app_nil_r, Z.add_0_r. split; [trivial | constructor].
  - destruct (Z.geb_spec (Z.of_nat (List.length acc)) max_files) as [Hn|Hn].
    + exists []. rewrite app_nil_r, Z.add_0_r. split; trivial.
      apply greedy_stop. lia.
    + destruct (Z.gtb_spec (t + file_size) max_total_size) as [Ht|Ht].
      * destruct (IH acc t) as [sel [E G]]. exists sel. split; trivial.
        apply greedy_skip; simpl; trivial; lia.
      * destruct (IH (acc ++ [(file_path, file_size)])%list (t + file_size)%Z)
          as [sel [E G]].
        exists ((file_path, file_size) :: sel). split.
        -- rewrite E, <- app_assoc. simpl. f_equal. lia.
        -- apply greedy_take; simpl; trivial.
           rewrite length_app, Nat.add_comm in G. exact G.
Qed.

Lemma greedy_budget (max_files : Z) n t cs sel :
  greedy max_files n t cs sel ->
  (t <= max_total_size)%Z -> (t + total_bytes sel <= max_total_size)%Z.
Proof.
  induction 1 as [n t|n t cs Hn|n t c cs sel Hn Ht G IH|n t c cs sel Hn Ht G IH];
    simpl; intros Hle; lia.
Qed.

Lemma greedy_count (max_files : Z) n t cs sel :
  greedy max_files n t cs sel ->
  sel = [] \/ (Z.of_nat (n + List.length sel) <= max_files)%Z.
Proof.
  induction 1 as [n t|n t cs Hn|n t c cs sel Hn Ht G IH|n t c cs sel Hn Ht G IH];
    auto.
  right. destruct IH as [->|IH]; simpl; lia.
Qed.

Lemma greedy_incl (max_files : Z) n t cs sel :
  greedy max_files n t cs sel -> incl sel cs.
Proof.
  induction 1 as [n t|n t cs Hn|n t c cs sel Hn Ht G IH|n t c cs sel Hn Ht G IH].
  - apply incl_refl.
  - intros x [].
  - now apply incl_tl.
  - intros x [<-|Hx]; [now left | right; now apply IH].
Qed.

(** The relation determines the selection. *)
Lemma greedy_functional (max_files : Z) n t cs sel1 sel2 :
  greedy max_files n t cs sel1 -> greedy max_files n t cs sel2 -> sel1 = sel2.
Proof.
  intros G1; revert sel2.
  induction G1 as [n t|n t cs Hn|n t c cs sel Hn Ht G IH|n t c cs sel Hn Ht G IH];
    intros sel2 G2; inversion G2; subst; trivial; try lia.
  - now apply IH.
  - f_equal. now apply IH.
Qed.

Lemma lt_false_le (a b : string) : PyStr.lt b a = false <-> str_le a b.
Proof.
  unfold PyStr.lt, str_le, String.ltb, String.leb.
  rewrite (String.compare_antisym b a).
  destruct (String.compare a b); simpl; intuition congruence.
Qed.

Lemma StronglySorted_weaken {A : Type} (R S : A -> A -> Prop) (l : list A) :
  (forall x y, R x y -> S x y) -> StronglySorted R l -> StronglySorted S l.
Proof.
  intros HRS. induction 1 as [|x l Hs IH Hx]; constructor; trivial.
  eapply Forall_impl; [|exact Hx]. auto.
Qed.

Lemma sort_strings_sorted (l : list string) :
  StronglySorted str_le (list_sort PyStr.lt (fun s => s) l).
Proof.
  apply StronglySorted_weaken with (R := key_le PyStr.lt (fun s => s)).
  - intros x y H. now apply lt_false_le.
  - apply list_sort_sorted.
    + exact StrOrder.lt_asym.
    + exact StrOrder.le_trans.
Qed.

(** ** Strings *)

Module StrFacts.

Lemma append_nil_r (s : string) : s ++ "" = s.
Proof. induction s as [|c s IH]; simpl; [trivial | now rewrite IH]. Qed.

Lemma append_assoc (a b c : string) : (a ++ b) ++ c = a ++ (b ++ c).
Proof. induction a as [|x a IH]; simpl; [trivial | now rewrite IH]. Qed.

Lemma length_append (a b : string) :
  String.length (a ++ b) = String.length a + String.length b.
Proof. induction a as [|x a IH]; simpl; [trivial | now rewrite IH]. Qed.

Lemma prefix_app (p s t : string) :
  String.prefix p s = true -> String.prefix p (s ++ t) = true.
Proof.
  revert s. induction p as [|x p IH]; intros [|y s]; simpl; trivial;
    try discriminate; try (now destruct t).
  destruct (ascii_dec x y); [apply IH | discriminate].
Qed.

Lemma contains_app (s t needle : string) :
  PyStr.contains s needle = true -> PyStr.contains (s ++ t) needle = true.
Proof.
  induction s as [|c s IH]; simpl.
  - rewrite orb_false_r. intros H.
    destruct needle; [now destruct t | discriminate].
  - intros H. apply orb_true_iff in H. apply orb_true_iff.
    destruct H as [H|H]; [left | right; now apply IH].
    now apply (prefix_app needle (String c s) t).
Qed.

Lemma lower_app (a b : string) :
  PyStr.lower (a ++ b) = PyStr.lower a ++ PyStr.lower b.
Proof. induction a as [|x a IH]; simpl; [trivial | now rewrite IH]. Qed.

Lemma join_app (sep : string) (l1 l2 : list string) :
  exists tail, PyStr.join sep (l1 ++ l2) = PyStr.join sep l1 ++ tail.
Proof.
  unfold PyStr.join. induction l1 as [|x l1 IH].
  - now exists (String.concat sep l2).
  - destruct l1 as [|z l1].
    + destruct l2 as [|y l2].
      * exists "". simpl. now rewrite append_nil_r.
      * now exists (sep ++ String.concat sep (y :: l2)).
    + destruct IH as [tail E]. exists tail.
      change (String.concat sep ((x :: z :: l1) ++ l2))
        with (x ++ sep ++ String.concat sep ((z :: l1) ++ l2)).
      rewrite E.
      change (String.concat sep (x :: z :: l1))
        with (x ++ sep ++ String.concat sep (z :: l1)).
      now rewrite !append_assoc.
Qed.

(** The string of a path below a root starts with the string of the root. *)
Lemma to_str_app (root_parts rel : list string) :
  root_parts <> [] ->
  exists tail,
    PyPath.to_str (root_parts ++ rel) = PyPath.to_str root_parts ++ tail.
Proof.
  destruct root_parts as [|p rest]; [congruence | intros _].
  simpl. destruct (PyStr.startswith p "/").
  - destruct (join_app "/" rest rel) as [tail E]. exists tail.
    now rewrite E, append_assoc.
  - exact (join_app "/" (p :: rest) rel).
Qed.

End StrFacts.

(** ** The loops of the selector *)

Lemma section_files_app (l1 l2 : list part) :
  section_files (l1 ++ l2) = (section_files l1 ++ section_files l2)%list.
Proof.
  induction l1 as [|p l1 IH]; simpl; trivial.
  destruct p; simpl; now rewrite ?IH.
Qed.

Lemma section_files_structure (target_dir : string) (s : structure) :
  section_files (structure_parts target_dir s) = [].
Proof.
  assert (H : forall l, section_files (map PDirName l) = []).
  { intros l. induction l; simpl; trivial. }
  unfold structure_parts. rewrite section_files_app.
  destruct (directories s) as [|d ds]; trivial.
  cbn [section_files app]. apply H.
Qed.

Lemma collect_code_files_spec (repo_parts : list string) (max_file_size : Z)
    (items : list item) (it : item) (size : Z) :
  In (it, size) (fst (collect_code_files repo_parts max_file_size items)) ->
  In it items
  /\ selector_skips repo_parts it = false
  /\ is_file it = true
  /\ PyStr.mem (item_suffix it) code_extensions = true
  /\ st_size it = Some size
  /\ (size <= max_file_size)%Z.
Proof.
  induction items as [|x items IH]; cbn [collect_code_files]; [intros []|].
  destruct (collect_code_files repo_parts max_file_size items) as [cf evs].
  cbn [fst] in IH.
  assert (Hrest : In (it, size) cf ->
          In it (x :: items)
          /\ selector_skips repo_parts it = false
          /\ is_file it = true
          /\ PyStr.mem (item_suffix it) code_extensions = true
          /\ st_size it = Some size
          /\ (size <= max_file_size)%Z).
  { intros H. destruct (IH H) as [? ?]. split; [now right | trivial]. }
  destruct (in_skip_directory repo_parts x) eqn:Hd; [exact Hrest|].
  destruct (is_skip_file x) eqn:Hf; [exact Hrest|].
  destruct (is_file x && PyStr.mem (item_suffix x) code_extensions) eqn:Hc;
    [|exact Hrest].
  destruct (st_size x) as [sz|] eqn:Hs; [|exact Hrest].
  destruct (Z.leb_spec sz max_file_size) as [Hle|Hle]; [|exact Hrest].
  cbn [fst]. intros [E|H]; [|now apply Hrest].
  inversion E; subst. apply andb_true_iff in Hc.
  unfold selector_skips. rewrite Hd, Hf.
  repeat split; try tauto. now left.
Qed.

Lemma collect_code_files_events (repo_parts : list string) (max_file_size : Z)
    (items : list item) (e : event) :
  In e (snd (collect_code_files repo_parts max_file_size items)) ->
  exists it, e = EvStat it.
Proof.
  induction items as [|x items IH]; cbn [collect_code_files]; [intros []|].
  destruct (collect_code_files repo_parts max_file_size items) as [cf evs].
  cbn [snd] in IH.
  destruct (in_skip_directory repo_parts x); [exact IH|].
  destruct (is_skip_file x); [exact IH|].
  destruct (is_file x && PyStr.mem (item_suffix x) code_extensions); [|exact IH].
  destruct (st_size x) as [sz|];
    [destruct (sz <=? max_file_size)%Z|]; cbn [snd];
    (intros [<-|H]; [now exists x | now apply IH]).
Qed.

Lemma read_files_spec (max_file_size : Z) (cs : list candidate) :
  section_files (fst (read_files max_file_size cs)) = map fst cs
  /\ snd (read_files max_file_size cs) = map EvRead (map fst cs).
Proof.
  induction cs as [|[file_path size] cs [IH1 IH2]]; simpl; [now split|].
  destruct (read_files max_file_size cs) as [ps' evs']. simpl in IH1, IH2.
  destruct (text file_path) as [whole|e]; simpl.
  - destruct (fits_ssize max_file_size); simpl; [|now rewrite IH1, IH2].
    destruct (is_document file_path); simpl.
    + rewrite section_files_app. simpl.
      destruct (Z.of_nat _ >=? max_file_size)%Z; simpl; now rewrite IH1, IH2.
    + now rewrite IH1, IH2.
  - now rewrite IH1, IH2.
Qed.

Lemma selection_incl (repo_parts : list string) (max_files max_file_size : Z)
    (items : list item) :
  incl (fst (selection repo_parts max_files max_file_size items))
       (fst (collect_code_files repo_parts max_file_size items)).
Proof.
  unfold selection, select_files.
  destruct (select_loop_greedy max_files
              (sort_code_files repo_parts
                 (fst (collect_code_files repo_parts max_file_size items)))
              [] 0%Z) as [sel [E G]].
  rewrite E. simpl. intros c Hc.
  apply greedy_incl in G. apply G in Hc.
  now apply list_sort_In in Hc.
Qed.

Lemma survey_events_no_read (fs : fs_view) (target_dir : string)
    (max_depth : Z) (it : item) :
  ~ In (EvRead it) (snd (get_repository_structure fs target_dir max_depth)).
Proof.
  unfold get_repository_structure.
  destruct (fs target_dir) as [w|]; simpl; [|intuition discriminate].
  destruct (survey_loop _ _ _ _ _) as [fl dl].
  destruct (raised w); simpl; intuition discriminate.
Qed.

(** The sections and the reads of a run come from the selected files. *)
Lemma content_parts_spec (fs : fs_view) (target_dir : string) (w : walk)
    (max_files max_file_size : Z) (it : item) :
  let run := content_parts fs target_dir w max_files max_file_size in
  let selected :=
    fst (selection (PyPath.parts target_dir) max_files max_file_size (yielded w)) in
  (In it (section_files (fst run)) -> In it (map fst selected))
  /\ (In (EvRead it) (snd run) -> In it (map fst selected)).
Proof.
  unfold content_parts.
  pose proof (survey_events_no_read fs target_dir 2 it) as Hsurvey.
  destruct (get_repository_structure fs target_dir 2) as [s ev_survey].
  simpl in Hsurvey.
  pose proof (collect_code_files_events (PyPath.parts target_dir) max_file_size
                (yielded w) (EvRead it)) as Hstat.
  destruct (collect_code_files (PyPath.parts target_dir) max_file_size (yielded w))
    as [cf ev_stat] eqn:Ecf.
  simpl in Hstat.
  assert (Hnostat : ~ In (EvRead it) ev_stat).
  { intros H. destruct (Hstat H) as [x Hx]. discriminate. }
  destruct (raised w) as [e|].
  - cbn [fst snd]. split.
    + rewrite section_files_app, section_files_structure. simpl. intros [].
    + intros H. apply in_app_or in H. destruct H as [H|[H|H]];
        [tauto | discriminate |].
      apply in_app_or in H. destruct H as [H|[H|[]]]; [tauto | discriminate].
  - destruct (selection (PyPath.parts target_dir) max_files max_file_size (yielded w))
      as [code_files total_size].
    destruct (read_files_spec max_file_size code_files) as [R1 R2].
    destruct (read_files max_file_size code_files) as [body ev_read].
    cbn [fst snd] in R1, R2. cbn [fst snd]. split.
    + rewrite section_files_app, section_files_structure. simpl.
      now rewrite R1.
    + intros H. apply in_app_or in H. destruct H as [H|[H|H]];
        [tauto | discriminate |].
      apply in_app_or in H. destruct H as [H|H]; [tauto|].
      rewrite R2 in H. apply in_map_iff in H.
      destruct H as [x [Ex Hx]]. now inversion Ex; subst.
Qed.

(** * The claims *)

(** ** C1 *)

(** C1. Greedy selection: on every list of candidates (in the order the
    sort left them), the selection loop of [extract_repository_content]
    returns the greedy selection of the specification (stop once
    [max_files] are selected; pass over, and go on scanning after, a
    candidate that would push the running total over 500,000 bytes), the
    total it reports is the sum of the selected sizes, and that sum never
    exceeds 500,000 bytes. *)
Theorem select_files_greedy (max_files : Z) (code_files : list candidate) :
  let selected_files := fst (select_files max_files code_files) in
  let total_size := snd (select_files max_files code_files) in
  greedy max_files 0 0 code_files selected_files
  /\ total_size = total_bytes selected_files
  /\ (total_bytes selected_files <= max_total_size)%Z.
Proof.
  unfold select_files.
  destruct (select_loop_greedy max_files code_files [] 0%Z) as [sel [E G]].
  rewrite E. simpl. repeat split; trivial.
  apply (greedy_budget _ _ _ _ _ G). unfold max_total_size. lia.
Qed.

(** A candidate that does not fit is passed over and a later, smaller one
    is still selected. *)
Example select_files_skips_and_continues :
  let big := Demo.file ["a.py"] 400000 "" in
  let mid := Demo.file ["b.py"] 200000 "" in
  let small := Demo.file ["c.py"] 50000 "" in
  select_files 50 [(big, 400000); (mid, 200000); (small, 50000)]%Z
  = ([(big, 400000); (small, 50000)], 450000)%Z.
Proof. reflexivity. Qed.

(** ** C7 *)

(** C7.  Missing root.  A path does not exist when there is nothing at
    it ([fs target_dir = None]).  When [exists()] answers for such a path,
    the call returns the string "Repository directory not found." and has
    done nothing but that test: no survey, no walk, no [stat], no read, no
    content part.  When [exists()] re-raises an [OSError] for it (line
    198 stands outside every [try]), the call raises that error instead
    of returning the string; the sibling [get_repository_structure] has
    the same test inside its [try]. *)
Theorem extract_call_missing_root (errors : stat_errors) (fs : fs_view)
    (target_dir : string) (max_files max_file_size : Z) :
  fs target_dir = None ->
  extract_call errors fs target_dir max_files max_file_size
  = match errors target_dir with
    | None => (Returns "Repository directory not found.", [EvExists target_dir])
    | Some e => (Raises e, [EvExists target_dir])
    end.
Proof.
  intros H. unfold extract_call, extract_repository_content, extract_run.
  rewrite H. now destruct (errors target_dir).
Qed.

(** The call on a path of 300 bytes in one component, which does not
    exist: it raises. *)
Lemma extract_call_missing_root_witness :
  extract_call Cases.name_too_long Demo.fs Cases.long_path 50 10000
  = (Raises ("[Errno 36] File name too long: '" ++ Cases.long_path ++ "'"),
     [EvExists Cases.long_path])
  /\ extract_call Cases.name_too_long Demo.fs "/no/such/path" 50 10000
     = (Returns "Repository directory not found.", [EvExists "/no/such/path"]).
Proof.
  split.
  - exact (extract_call_missing_root Cases.name_too_long Demo.fs
             Cases.long_path 50 10000 eq_refl).
  - exact (extract_call_missing_root Cases.name_too_long Demo.fs
             "/no/such/path" 50 10000 eq_refl).
Defined.

(** ** C8 *)

(** C8. Small-content identity: content shorter than 3000 is returned
    unchanged, whatever the extension. *)
Theorem extract_code_structure_small (content file_extension : string) :
  String.length content < 3000 ->
  _extract_code_structure content file_extension = content.
Proof.
  intros H. unfold _extract_code_structure, CODE_STRUCTURE_EXTRACTION_THRESHOLD.
  apply Nat.ltb_lt in H. now rewrite H.
Qed.

Lemma extract_code_structure_small_witness :
  _extract_code_structure "def hello(): pass" ".py" = "def hello(): pass".
Proof.
  apply (extract_code_structure_small "def hello(): pass" ".py").
  simpl. lia.
Defined.

(** ** C9 *)

(** C9. Surveyor sortedness: when the root exists and the walk raises
    nothing, the files list and the directories list of
    [get_repository_structure] are each sorted in ascending lexicographic
    (code point) order. *)
Theorem survey_lists_sorted (fs : fs_view) (target_dir : string)
    (max_depth : Z) (w : walk) :
  fs target_dir = Some w ->
  raised w = None ->
  let s := fst (get_repository_structure fs target_dir max_depth) in
  StronglySorted str_le (files s) /\ StronglySorted str_le (directories s).
Proof.
  intros Hw Hr. unfold get_repository_structure. rewrite Hw.
  destruct (survey_loop _ _ _ _ _) as [fl dl]. rewrite Hr. simpl.
  split; apply sort_strings_sorted.
Qed.

Lemma survey_lists_sorted_witness :
  let s := fst (get_repository_structure Demo.fs "/tmp/repo" 3) in
  StronglySorted str_le (files s) /\ StronglySorted str_le (directories s).
Proof.
  exact (survey_lists_sorted Demo.fs "/tmp/repo" 3 Demo.repo_walk eq_refl eq_refl).
Defined.

(** ** C10 *)

(** The sort does not make the value independent of the order in which
    the filesystem lists its entries: candidates with equal keys keep the
    order of the walk.  (The statement for C10 is at the end of the file,
    after the facts on the sort that it needs.) *)
Remark output_follows_walk_order :
  let a := Demo.file ["a"; "README.md"] 5 "A" in
  let b := Demo.file ["b"; "README.md"] 5 "B" in
  let fs1 : fs_view := fun _ => Some (mk_walk [a; b] None) in
  let fs2 : fs_view := fun _ => Some (mk_walk [b; a] None) in
  Permutation [a; b] [b; a]
  /\ file_sections fs1 "/tmp/r" 50 10000 = [a; b]
  /\ file_sections fs2 "/tmp/r" 50 10000 = [b; a]
  /\ extract_repository_content fs1 "/tmp/r" 50 10000
     <> extract_repository_content fs2 "/tmp/r" 50 10000.
Proof.
  split; [apply perm_swap | split; [reflexivity | split; [reflexivity|]]].
  apply String.eqb_neq. vm_compute. reflexivity.
Qed.

(** ** C4 *)

Lemma in_skip_directory_root (repo_parts : list string) (skip : string)
    (it : item) :
  In skip SKIP_DIRECTORIES -> In skip repo_parts ->
  in_skip_directory repo_parts it = true.
Proof.
  intros Hs Hr. unfold in_skip_directory. apply existsb_exists.
  exists skip. split; trivial. apply mem_In. unfold item_parts.
  apply in_or_app. now left.
Qed.

Lemma collect_all_skipped (repo_parts : list string) (max_file_size : Z)
    (items : list item) :
  (forall it, in_skip_directory repo_parts it = true) ->
  collect_code_files repo_parts max_file_size items = ([], []).
Proof.
  intros H. induction items as [|x items IH]; cbn [collect_code_files]; trivial.
  now rewrite IH, H.
Qed.

Lemma no_member_nil {A : Type} (l : list A) : (forall x, ~ In x l) -> l = [].
Proof. destruct l as [|x l]; trivial. intros H. destruct (H x). now left. Qed.

Lemma root_str_in_item_str (repo_parts : list string) (it : item)
    (needle : string) :
  repo_parts <> [] ->
  PyStr.contains (PyStr.lower (PyPath.to_str repo_parts)) needle = true ->
  PyStr.contains (PyStr.lower (item_str repo_parts it)) needle = true.
Proof.
  intros Hne H. unfold item_str, item_parts.
  destruct (StrFacts.to_str_app repo_parts (rel_parts it) Hne) as [tail E].
  rewrite E, StrFacts.lower_app. now apply StrFacts.contains_app.
Qed.

Lemma root_str_in_item_str_or (repo_parts : list string) (it : item)
    (n1 n2 : string) :
  repo_parts <> [] ->
  PyStr.contains (PyStr.lower (PyPath.to_str repo_parts)) n1
  || PyStr.contains (PyStr.lower (PyPath.to_str repo_parts)) n2 = true ->
  PyStr.contains (PyStr.lower (item_str repo_parts it)) n1
  || PyStr.contains (PyStr.lower (item_str repo_parts it)) n2 = true.
Proof.
  intros Hne H. apply orb_true_iff in H. apply orb_true_iff.
  destruct H as [H|H]; [left | right]; now apply root_str_in_item_str.
Qed.

(** C4. The skip-directory test reads every component of the absolute
    path, those of the root included: when a member of the skip set is a
    component of the root path, no file is collected (none is even passed
    to [stat]), none is selected, and no [### File:] section is appended
    to the value returned, whatever the repository holds.  The substring
    tests of [file_priority] read the lowercased absolute path too: when
    the string of the root contains "src" or "app" every file is of tier 3
    or better, and when it contains "test" or "spec" every file is of
    tier 6 or better. *)
Theorem skip_directory_in_root (fs : fs_view) (target_dir : string)
    (max_files max_file_size : Z) :
  let repo_parts := PyPath.parts target_dir in
  let root_str := PyStr.lower (PyPath.to_str repo_parts) in
  (forall skip,
      In skip SKIP_DIRECTORIES -> In skip repo_parts ->
      (forall items,
          collect_code_files repo_parts max_file_size items = ([], []))
      /\ (forall items,
             selection repo_parts max_files max_file_size items = ([], 0%Z))
      /\ file_sections fs target_dir max_files max_file_size = [])
  /\ (forall file_tuple,
         PyStr.contains root_str "src" || PyStr.contains root_str "app" = true ->
         (tier (file_priority repo_parts file_tuple) <= 3)%Z)
  /\ (forall file_tuple,
         PyStr.contains root_str "test" || PyStr.contains root_str "spec" = true ->
         (tier (file_priority repo_parts file_tuple) <= 6)%Z).
Proof.
  intros repo_parts root_str. split; [|split].
  - intros skip Hs Hr.
    assert (Hall : forall it, in_skip_directory repo_parts it = true)
      by (intros it; now apply (in_skip_directory_root repo_parts skip)).
    assert (Hsel : forall items,
               selection repo_parts max_files max_file_size items = ([], 0%Z)).
    { intros items. unfold selection.
      now rewrite (collect_all_skipped repo_parts max_file_size items Hall). }
    split; [|split]; trivial.
    + intros items. now apply collect_all_skipped.
    + unfold file_sections, extract_run.
      destruct (fs target_dir) as [w|]; trivial.
      pose proof (content_parts_spec fs target_dir w max_files max_file_size) as P.
      destruct (content_parts fs target_dir w max_files max_file_size) as [ps evs].
      cbn [fst snd] in *. apply no_member_nil. intros it Hit.
      destruct (P it) as [P1 _]. specialize (P1 Hit).
      fold repo_parts in P1. now rewrite Hsel in P1.
  - intros [file_path file_size] H.
    assert (Hne : repo_parts <> []).
    { intros E. subst root_str. rewrite E in H. vm_compute in H. discriminate. }
    pose proof (root_str_in_item_str_or repo_parts file_path "src" "app" Hne H) as H'.
    unfold file_priority.
    destruct (PyStr.contains _ "readme"); [cbn; lia|].
    destruct (PyStr.mem _ _); [cbn; lia|].
    destruct (PyStr.mem _ _); [cbn; lia|].
    rewrite H'. cbn. lia.
  - intros [file_path file_size] H.
    assert (Hne : repo_parts <> []).
    { intros E. subst root_str. rewrite E in H. vm_compute in H. discriminate. }
    pose proof (root_str_in_item_str_or repo_parts file_path "test" "spec" Hne H) as H'.
    unfold file_priority.
    destruct (PyStr.contains _ "readme"); [cbn; lia|].
    destruct (PyStr.mem _ _); [cbn; lia|].
    destruct (PyStr.mem _ _); [cbn; lia|].
    destruct (PyStr.contains _ "src" || _); [cbn; lia|].
    destruct (PyStr.mem _ _); [cbn; lia|].
    destruct (PyStr.mem _ _); [cbn; lia|].
    rewrite H'. cbn. lia.
Qed.

Lemma skip_directory_in_root_witness :
  selection (PyPath.parts "/home/build/repo") 50 10000 (yielded Demo.repo_walk)
  = ([], 0%Z)
  /\ file_sections Demo.fs "/home/build/repo" 50 10000 = []
  /\ (tier (file_priority (PyPath.parts "/srv/app/repo")
              (Demo.file ["util.py"] 5 "", 5%Z)) <= 3)%Z.
Proof.
  destruct (skip_directory_in_root Demo.fs "/home/build/repo" 50 10000)
    as [Hskip _].
  destruct (Hskip "build") as [_ [Hsel Hsec]].
  - vm_compute. tauto.
  - vm_compute. tauto.
  - destruct (skip_directory_in_root Demo.fs "/srv/app/repo" 50 10000)
      as [_ [Htier _]].
    split; [apply Hsel | split; [exact Hsec | apply Htier; reflexivity]].
Defined.

(** ** C5 *)

(** C5. Per-file cap: a file whose [stat] size exceeds [max_file_size] is
    never collected as a candidate, so it is never opened or read (the
    structural extractor only ever sees text that was read) and no
    [### File:] section is made for it. *)
Theorem oversized_file_excluded (fs : fs_view) (target_dir : string)
    (max_files max_file_size : Z) (it : item) (size : Z) :
  st_size it = Some size ->
  (size > max_file_size)%Z ->
  (forall items file_size,
      ~ In (it, file_size)
           (fst (collect_code_files (PyPath.parts target_dir) max_file_size items)))
  /\ ~ In (EvRead it) (snd (extract_run fs target_dir max_files max_file_size))
  /\ ~ In it (file_sections fs target_dir max_files max_file_size).
Proof.
  intros Hsize Hbig.
  assert (Hcand : forall items file_size,
             ~ In (it, file_size)
                  (fst (collect_code_files (PyPath.parts target_dir)
                          max_file_size items))).
  { intros items file_size H. apply collect_code_files_spec in H.
    destruct H as [_ [_ [_ [_ [Hs Hle]]]]]. rewrite Hsize in Hs.
    inversion Hs; subst. lia. }
  assert (Hsel : forall items,
             ~ In it (map fst (fst (selection (PyPath.parts target_dir)
                                      max_files max_file_size items)))).
  { intros items H. apply in_map_iff in H. destruct H as [[x sz] [E H]].
    simpl in E; subst x. apply selection_incl in H. now apply Hcand in H. }
  split; [exact Hcand|].
  unfold file_sections, extract_run.
  destruct (fs target_dir) as [w|]; [|simpl; intuition discriminate].
  pose proof (content_parts_spec fs target_dir w max_files max_file_size it) as P.
  destruct (content_parts fs target_dir w max_files max_file_size) as [ps evs].
  cbn [fst snd] in *. destruct P as [P1 P2]. split.
  - intros [H|H]; [discriminate|]. now apply (Hsel (yielded w)), P2.
  - intros H. now apply (Hsel (yielded w)), P1.
Qed.

Lemma oversized_file_excluded_witness :
  let big := Demo.file ["big.py"] 20000 "..." in
  (forall items file_size,
      ~ In (big, file_size)
           (fst (collect_code_files (PyPath.parts "/tmp/repo") 10000 items)))
  /\ ~ In (EvRead big) (snd (extract_run Demo.fs "/tmp/repo" 50 10000))
  /\ ~ In big (file_sections Demo.fs "/tmp/repo" 50 10000).
Proof.
  apply (oversized_file_excluded Demo.fs "/tmp/repo" 50 10000
           (Demo.file ["big.py"] 20000 "...") 20000%Z).
  - reflexivity.
  - lia.
Defined.

(** ** C2 *)

Lemma surveyor_skips_in_skip_directory (repo_parts : list string) (it : item) :
  surveyor_skips repo_parts it = true -> in_skip_directory repo_parts it = true.
Proof.
  unfold surveyor_skips, in_skip_directory. intros H.
  apply existsb_exists. exists ".git". split; trivial. simpl. now left.
Qed.

Lemma survey_loop_ignores_skipped (repo_parts : list string) (max_depth : Z)
    (items : list item) (fl dl : list string) :
  survey_loop repo_parts max_depth items fl dl
  = survey_loop repo_parts max_depth
      (filter (surveyor_keeps repo_parts) items) fl dl.
Proof.
  revert fl dl. induction items as [|x items IH]; intros fl dl; trivial.
  cbn [filter survey_loop]. unfold surveyor_keeps at 1.
  destruct (surveyor_skips repo_parts x) eqn:E; cbn [negb]; [apply IH|].
  cbn [survey_loop]. rewrite E.
  destruct (_ >? _)%Z; [apply IH|].
  destruct (is_file x); [apply IH|].
  destruct (is_dir x); apply IH.
Qed.

Lemma collect_ignores_skipped (repo_parts : list string) (max_file_size : Z)
    (items : list item) :
  collect_code_files repo_parts max_file_size items
  = collect_code_files repo_parts max_file_size
      (filter (surveyor_keeps repo_parts) items).
Proof.
  induction items as [|x items IH]; trivial.
  cbn [filter collect_code_files]. unfold surveyor_keeps at 1.
  destruct (surveyor_skips repo_parts x) eqn:E; cbn [negb].
  - rewrite (surveyor_skips_in_skip_directory _ _ E), <- IH.
    now destruct (collect_code_files repo_parts max_file_size items).
  - cbn [collect_code_files]. now rewrite <- IH.
Qed.

(** C2, as the code has it.  The surveyor's exclusion rule (a [.git]
    component in the path) is part of the selector's: an item the surveyor
    excludes is excluded by the selector too, and both loops run as if the
    items with a [.git] component were not in the walk.  The converse does
    not hold: the nine other skip directories and the skip-by-name set are
    the selector's alone. *)
Theorem surveyor_rule_in_selector_rule (repo_parts : list string) :
  (forall it,
      surveyor_skips repo_parts it = true -> selector_skips repo_parts it = true)
  /\ (forall max_depth items fl dl,
         survey_loop repo_parts max_depth items fl dl
         = survey_loop repo_parts max_depth
             (filter (surveyor_keeps repo_parts) items) fl dl)
  /\ (forall max_file_size items,
         collect_code_files repo_parts max_file_size items
         = collect_code_files repo_parts max_file_size
             (filter (surveyor_keeps repo_parts) items)).
Proof.
  split; [|split].
  - intros it H. unfold selector_skips.
    now rewrite (surveyor_skips_in_skip_directory _ _ H).
  - apply survey_loop_ignores_skipped.
  - apply collect_ignores_skipped.
Qed.

Lemma surveyor_rule_in_selector_rule_witness :
  selector_skips (PyPath.parts "/tmp/repo") (Demo.file [".git"; "config"] 92 "")
  = true.
Proof.
  destruct (surveyor_rule_in_selector_rule (PyPath.parts "/tmp/repo")) as [H _].
  apply H. reflexivity.
Defined.

(** C2 as stated fails: in the small repository the selector's rules
    exclude the directory [node_modules] and the file [pkg/LICENSE], the
    surveyor's rule excludes neither, and both are in the lists the
    surveyor returns. *)
Lemma exclusion_rules_differ :
  let repo_parts := PyPath.parts "/tmp/repo" in
  let s := fst (get_repository_structure Demo.fs "/tmp/repo" 2) in
  selector_skips repo_parts (Demo.dir ["node_modules"]) = true
  /\ surveyor_skips repo_parts (Demo.dir ["node_modules"]) = false
  /\ In "node_modules" (directories s)
  /\ selector_skips repo_parts (Demo.file ["pkg"; "LICENSE"] 3 "MIT") = true
  /\ surveyor_skips repo_parts (Demo.file ["pkg"; "LICENSE"] 3 "MIT") = false
  /\ In "pkg/LICENSE" (files s).
Proof. vm_compute. tauto. Qed.

(** ** C3 *)

Lemma key_lt_asym (a b : priority_key) : key_lt a b = true -> key_lt b a = false.
Proof.
  destruct a as [[t1 s1] n1], b as [[t2 s2] n2]. unfold key_lt.
  destruct (Z.eqb_spec t1 t2), (Z.eqb_spec t2 t1); try lia.
  destruct (Z.eqb_spec s1 s2), (Z.eqb_spec s2 s1); try lia.
  apply StrOrder.lt_asym.
Qed.

Lemma key_le_trans (a b c : priority_key) :
  key_lt b a = false -> key_lt c b = false -> key_lt c a = false.
Proof.
  destruct a as [[t1 s1] n1], b as [[t2 s2] n2], c as [[t3 s3] n3].
  unfold key_lt.
  destruct (Z.eqb_spec t2 t1), (Z.eqb_spec t3 t2), (Z.eqb_spec t3 t1);
    subst; try lia.
  destruct (Z.eqb_spec s2 s1), (Z.eqb_spec s3 s2), (Z.eqb_spec s3 s1);
    subst; try lia.
  apply StrOrder.le_trans.
Qed.

(** The key of a candidate: its lowercase name last; size 0 in tiers 0 to
    2 and the file size in tiers 3 to 7. *)
Lemma file_priority_shape (repo_parts : list string) (c : candidate) :
  exists t s,
    file_priority repo_parts c = (t, s, lower_name c)
    /\ ((0 <= t <= 2 /\ s = 0) \/ (3 <= t <= 7 /\ s = snd c))%Z.
Proof.
  destruct c as [file_path file_size]. unfold file_priority, lower_name.
  cbn [fst snd].
  destruct (PyStr.contains _ "readme");
    [do 2 eexists; split; [reflexivity | lia]|].
  destruct (PyStr.mem _ _); [do 2 eexists; split; [reflexivity | lia]|].
  destruct (PyStr.mem _ _); [do 2 eexists; split; [reflexivity | lia]|].
  destruct (PyStr.contains _ "src" || _);
    [do 2 eexists; split; [reflexivity | lia]|].
  destruct (PyStr.mem _ _); [do 2 eexists; split; [reflexivity | lia]|].
  destruct (PyStr.mem _ _); [do 2 eexists; split; [reflexivity | lia]|].
  destruct (PyStr.contains _ "test" || _);
    do 2 eexists; (split; [reflexivity | lia]).
Qed.

Lemma key_lt_sorts_first (repo_parts : list string) (a b : candidate) :
  key_lt (file_priority repo_parts a) (file_priority repo_parts b) = true ->
  sorts_first repo_parts a b.
Proof.
  intros H code_files l1 l2 E. unfold sort_code_files in E.
  exact (list_sort_before key_lt (file_priority repo_parts)
           key_lt_asym key_le_trans code_files l1 l2 a b H E).
Qed.

(** C3, as the code has it.  Of two candidates of the same tier: in tiers
    3 to 7 the one of smaller size sorts first and, at equal size, the one
    whose lowercase name is smaller; in tiers 0 to 2 the key holds 0 in
    place of the size, so the one whose lowercase name is smaller sorts
    first whatever the sizes. *)
Theorem priority_tie_break (repo_parts : list string) (a b : candidate) :
  let before :=
    key_lt (file_priority repo_parts a) (file_priority repo_parts b) = true
    /\ sorts_first repo_parts a b in
  tier (file_priority repo_parts a) = tier (file_priority repo_parts b) ->
  ((3 <= tier (file_priority repo_parts a))%Z ->
     ((snd a < snd b)%Z -> before)
     /\ (snd a = snd b ->
         PyStr.lt (lower_name a) (lower_name b) = true -> before))
  /\ ((tier (file_priority repo_parts a) <= 2)%Z ->
      PyStr.lt (lower_name a) (lower_name b) = true -> before).
Proof.
  intros before Htier.
  assert (Hbefore :
            key_lt (file_priority repo_parts a) (file_priority repo_parts b)
            = true -> before).
  { intros H. split; [exact H | now apply key_lt_sorts_first]. }
  clearbody before.
  destruct (file_priority_shape repo_parts a) as [ta [sa [Ea Ha]]].
  destruct (file_priority_shape repo_parts b) as [tb [sb [Eb Hb]]].
  rewrite Ea, Eb in *. unfold tier in *. cbn [fst] in *. subst tb.
  unfold key_lt in Hbefore. rewrite Z.eqb_refl in Hbefore.
  split; [intros H3; split|].
  - intros Hlt. apply Hbefore.
    destruct (Z.eqb_spec sa sb); [lia | apply Z.ltb_lt; lia].
  - intros Heq Hname. apply Hbefore.
    destruct (Z.eqb_spec sa sb); [exact Hname | lia].
  - intros H2 Hname. apply Hbefore.
    destruct (Z.eqb_spec sa sb); [exact Hname | lia].
Qed.

Lemma priority_tie_break_witness :
  sorts_first (PyPath.parts "/tmp/repo")
    (Demo.file ["lib"; "a.py"] 10 "", 10%Z)
    (Demo.file ["lib"; "b.py"] 20 "", 20%Z)
  /\ sorts_first (PyPath.parts "/tmp/repo")
       (Demo.file ["README.md"] 9000 "", 9000%Z)
       (Demo.file ["docs"; "README.txt"] 10 "", 10%Z).
Proof.
  split.
  - destruct (priority_tie_break (PyPath.parts "/tmp/repo")
                (Demo.file ["lib"; "a.py"] 10 "", 10%Z)
                (Demo.file ["lib"; "b.py"] 20 "", 20%Z) eq_refl) as [H _].
    destruct H as [H _]; [vm_compute; discriminate|].
    apply H. simpl. lia.
  - destruct (priority_tie_break (PyPath.parts "/tmp/repo")
                (Demo.file ["README.md"] 9000 "", 9000%Z)
                (Demo.file ["docs"; "README.txt"] 10 "", 10%Z) eq_refl) as [_ H].
    apply H; [vm_compute; discriminate | reflexivity].
Defined.

(** C3 as stated fails in tier 0: of two readme files, the one of 10
    bytes sorts after the one of 9000 bytes. *)
Lemma smaller_readme_sorts_later :
  let repo_parts := PyPath.parts "/tmp/repo" in
  let small := (Demo.file ["docs"; "README.txt"] 10 "", 10%Z) in
  let large := (Demo.file ["README.md"] 9000 "", 9000%Z) in
  tier (file_priority repo_parts small) = 0%Z
  /\ tier (file_priority repo_parts large) = 0%Z
  /\ (snd small < snd large)%Z
  /\ key_lt (file_priority repo_parts large) (file_priority repo_parts small)
     = true
  /\ sort_code_files repo_parts [small; large] = [large; small].
Proof. vm_compute. repeat split; trivial. Qed.

(** ** C6 *)

Module SplitJoin.

Import Scenario.

Lemma split_line (x : string) :
  no_newline x = true -> PyStr.split PyStr.nl_char x = [x].
Proof.
  induction x as [|c x IH]; simpl; trivial.
  intros H. apply andb_true_iff in H. destruct H as [Hc Hx].
  apply negb_true_iff in Hc. now rewrite Hc, (IH Hx).
Qed.

Lemma split_line_nl (x rest : string) :
  no_newline x = true ->
  PyStr.split PyStr.nl_char (x ++ String PyStr.nl_char rest)
  = x :: PyStr.split PyStr.nl_char rest.
Proof.
  induction x as [|c x IH]; intros H.
  - cbn [append PyStr.split]. now rewrite Ascii.eqb_refl.
  - cbn [no_newline] in H. apply andb_true_iff in H. destruct H as [Hc Hx].
    apply negb_true_iff in Hc. cbn [append PyStr.split].
    now rewrite Hc, (IH Hx).
Qed.

Lemma join_cons (x y : string) (l : list string) :
  PyStr.join PyStr.nl (x :: y :: l)
  = x ++ String PyStr.nl_char (PyStr.join PyStr.nl (y :: l)).
Proof. reflexivity. Qed.

(** Splitting the joined lines gives the lines back. *)
Lemma split_join (lines : list string) :
  lines <> [] ->
  forallb no_newline lines = true ->
  PyStr.split PyStr.nl_char (PyStr.join PyStr.nl lines) = lines.
Proof.
  induction lines as [|x lines IH]; [congruence | intros _ H].
  cbn [forallb] in H. apply andb_true_iff in H. destruct H as [Hx Hl].
  destruct lines as [|y lines].
  - now apply split_line.
  - rewrite join_cons, (split_line_nl _ _ Hx). f_equal.
    apply IH; [discriminate | exact Hl].
Qed.

(** The sum of the lengths of the lines. *)
Lemma length_join (lines : list string) :
  lines <> [] ->
  String.length (PyStr.join PyStr.nl lines) + 1
  = list_sum (map String.length lines) + List.length lines.
Proof.
  induction lines as [|x lines IH]; [congruence | intros _].
  destruct lines as [|y lines].
  - simpl. lia.
  - rewrite join_cons, StrFacts.length_append.
    cbn [String.length map list_sum List.length fold_right] in *.
    assert (H : y :: lines <> []) by discriminate.
    specialize (IH H). lia.
Qed.

Lemma list_sum_filter (p : string -> bool) (lines : list string) :
  list_sum (map String.length (filter p lines))
  <= list_sum (map String.length lines).
Proof.
  induction lines as [|x lines IH]; simpl; trivial.
  destruct (p x); simpl; lia.
Qed.

End SplitJoin.

Module Counting.

Section Filters.

Context {A : Type}.
Variables p q : A -> bool.

Lemma filter_length_mono (l : list A) :
  (forall x, p x = true -> q x = true) ->
  List.length (filter p l) <= List.length (filter q l).
Proof.
  intros Hpq. induction l as [|x l IH]; simpl; trivial.
  destruct (p x) eqn:Ep.
  - rewrite (Hpq x Ep). simpl. lia.
  - destruct (q x); simpl; lia.
Qed.

Lemma filter_same_length (l : list A) :
  (forall x, p x = true -> q x = true) ->
  List.length (filter p l) = List.length (filter q l) ->
  filter p l = filter q l.
Proof.
  intros Hpq. induction l as [|x l IH]; simpl; trivial.
  pose proof (filter_length_mono l Hpq) as Hmono.
  destruct (p x) eqn:Ep.
  - rewrite (Hpq x Ep). simpl. intros H. f_equal. apply IH. lia.
  - destruct (q x); simpl; intros H; [lia | now apply IH].
Qed.

Lemma filter_orb_length (l : list A) :
  (forall x, p x = true -> q x = false) ->
  List.length (filter (fun x => p x || q x) l)
  = List.length (filter p l) + List.length (filter q l).
Proof.
  intros Hex. induction l as [|x l IH]; simpl; trivial.
  destruct (p x) eqn:Ep; simpl.
  - rewrite (Hex x Ep). simpl. lia.
  - destruct (q x); simpl; lia.
Qed.

End Filters.

End Counting.

Module ScenarioFacts.

Import Scenario.

Lemma prefix_head (a : ascii) (p s : string) :
  String.prefix (String a p) s = true -> exists r, s = String a r.
Proof.
  destruct s as [|b s]; simpl; [discriminate|].
  destruct (ascii_dec a b) as [->|]; [now exists s | discriminate].
Qed.

(** Two prefixes that begin with different characters exclude each other. *)
Lemma prefixes_exclusive (a b : ascii) (p q line : string) :
  a <> b ->
  stripped_startswith (String a p) line = true ->
  stripped_startswith (String b q) line = false.
Proof.
  unfold stripped_startswith, PyStr.startswith. intros Hab H.
  destruct (prefix_head _ _ _ H) as [r ->].
  simpl. now destruct (ascii_dec b a) as [->|].
Qed.

Lemma structural_keyword (line : string) :
  structural line = true -> keyword_line py_prefixes line = true.
Proof.
  unfold structural, keyword_line, py_prefixes, stripped_startswith.
  cbn [existsb].
  destruct (PyStr.startswith _ "import "), (PyStr.startswith _ "class "),
    (PyStr.startswith _ "def "), (PyStr.startswith _ "from ");
    simpl; intros H; try discriminate H; trivial.
Qed.

Lemma count_structural (lines : list string) :
  count_lines structural lines
  = count_lines (stripped_startswith "import ") lines
    + count_lines (stripped_startswith "class ") lines
    + count_lines (stripped_startswith "def ") lines.
Proof.
  unfold count_lines.
  pose proof (Counting.filter_orb_length
                (fun l => stripped_startswith "import " l
                          || stripped_startswith "class " l)
                (stripped_startswith "def ") lines) as H1.
  pose proof (Counting.filter_orb_length
                (stripped_startswith "import ")
                (stripped_startswith "class ") lines) as H2.
  cbv beta in H1, H2. unfold structural at 1.
  rewrite H1, H2; trivial.
  - intros x. now apply prefixes_exclusive.
  - intros x H. apply orb_true_iff in H.
    destruct H as [H|H]; revert H; now apply prefixes_exclusive.
Qed.

(** In the scenario the keyword filter keeps the six structural lines
    and nothing else. *)
Lemma keyword_filter (lines : list string) :
  large_python_content lines ->
  filter (keyword_line py_prefixes) lines = structural_lines lines
  /\ List.length (structural_lines lines) = 6.
Proof.
  intros [_ [Hi [Hc [Hd [Hf [Hlen _]]]]]].
  pose proof (count_structural lines) as Hs.
  rewrite Hi, Hc, Hd in Hs. unfold count_lines in Hs.
  pose proof (filter_length (keyword_line py_prefixes) lines) as Hk.
  unfold count_lines, filler in Hf. rewrite Hf, Hlen in Hk.
  unfold structural_lines. split; [|exact Hs].
  symmetry. apply Counting.filter_same_length.
  - exact structural_keyword.
  - lia.
Qed.

End ScenarioFacts.

Lemma length_take (n : nat) (s : string) : String.length (PyStr.take n s) <= n.
Proof.
  unfold PyStr.take. revert s.
  induction n as [|n IH]; intros [|c s]; simpl; try lia.
  specialize (IH s). lia.
Qed.

(** C6, as the code has it.  On 5000 bytes of [.py] content made of 3
    [import] lines, 1 [class] line, 2 [def] lines and 400 filler lines,
    the result of [_extract_code_structure] is strictly shorter than the
    content; when the six structural lines joined by newlines make at
    least 100 bytes, it is exactly those six lines, in order and joined by
    newlines, followed by the trailing marker. *)
Theorem extract_large_python (lines : list string) :
  Scenario.large_python_content lines ->
  let content := PyStr.join PyStr.nl lines in
  (100 <= String.length (PyStr.join PyStr.nl (Scenario.structural_lines lines)) ->
   _extract_code_structure content ".py" = Scenario.expected_output lines)
  /\ List.length (Scenario.structural_lines lines) = 6
  /\ String.length (_extract_code_structure content ".py")
     < String.length content.
Proof.
  intros Hscenario content.
  destruct (ScenarioFacts.keyword_filter lines Hscenario) as [Hkw H6].
  destruct Hscenario as [Hnl [_ [_ [_ [_ [Hlen Hsize]]]]]].
  assert (Hne : lines <> []) by (intros ->; discriminate).
  assert (Hst : Scenario.structural_lines lines <> [])
    by (intros E; rewrite E in H6; discriminate).
  assert (Hout : _extract_code_structure content ".py"
                 = finish_extraction content (Scenario.structural_lines lines)).
  { unfold _extract_code_structure. subst content.
    destruct (Nat.ltb_spec (String.length (PyStr.join PyStr.nl lines))
                CODE_STRUCTURE_EXTRACTION_THRESHOLD) as [Hlt|_].
    { unfold CODE_STRUCTURE_EXTRACTION_THRESHOLD in Hlt. lia. }
    change (PyStr.mem ".py" [".py"]) with true. cbv iota.
    now rewrite (SplitJoin.split_join lines Hne Hnl), Hkw. }
  rewrite Hout. unfold finish_extraction, Scenario.expected_output.
  pose proof (SplitJoin.length_join _ Hst) as L1.
  pose proof (SplitJoin.length_join _ Hne) as L2.
  pose proof (SplitJoin.list_sum_filter Scenario.structural lines) as L3.
  fold (Scenario.structural_lines lines) in L3.
  destruct (Scenario.structural_lines lines) as [|l ls] eqn:E; [congruence|].
  unfold MIN_EXTRACTED_CONTENT.
  destruct (Nat.ltb_spec (String.length (PyStr.join PyStr.nl (l :: ls))) 100)
    as [Hlt|Hge].
  - split; [lia | split; [exact H6|]].
    unfold truncate_content. rewrite StrFacts.length_append.
    change (String.length truncated_marker) with 28.
    pose proof (length_take CODE_STRUCTURE_EXTRACTION_THRESHOLD content) as L4.
    unfold CODE_STRUCTURE_EXTRACTION_THRESHOLD in *. subst content. lia.
  - split; [trivial | split; [exact H6|]].
    rewrite StrFacts.length_append.
    change (String.length omitted_marker) with 54.
    subst content. lia.
Qed.

Lemma extract_large_python_witness :
  let content := PyStr.join PyStr.nl Scenario.long_lines in
  _extract_code_structure content ".py"
  = Scenario.expected_output Scenario.long_lines
  /\ List.length (Scenario.structural_lines Scenario.long_lines) = 6
  /\ String.length (_extract_code_structure content ".py")
     < String.length content.
Proof.
  destruct (extract_large_python Scenario.long_lines) as [H1 H2].
  - vm_compute. repeat split; reflexivity.
  - split; [|exact H2]. apply H1. vm_compute. repeat constructor.
Defined.

(** C6 as stated fails when the six structural lines are short: joined
    they make 56 bytes, fewer than 100, and the extractor returns the
    first 3000 bytes of the content and the truncation marker instead. *)
Lemma short_structure_falls_back :
  let content := PyStr.join PyStr.nl Scenario.short_lines in
  Scenario.large_python_content Scenario.short_lines
  /\ _extract_code_structure content ".py" = truncate_content content
  /\ _extract_code_structure content ".py"
     <> Scenario.expected_output Scenario.short_lines.
Proof.
  split; [|split].
  - vm_compute. repeat split; reflexivity.
  - vm_compute. reflexivity.
  - apply String.eqb_neq. vm_compute. reflexivity.
Qed.

(** * Beyond the claims *)

(** ** The LLM call *)

Module LlmFacts.

Import Llm.

Lemma invocations_app (l1 l2 : list llm_event) :
  invocations (l1 ++ l2) = invocations l1 + invocations l2.
Proof.
  induction l1 as [|ev l1 IH]; simpl; trivial. destruct ev; simpl; lia.
Qed.

Lemma sleeps_app (l1 l2 : list llm_event) :
  sleeps (l1 ++ l2) = (sleeps l1 ++ sleeps l2)%list.
Proof.
  induction l1 as [|ev l1 IH]; simpl; trivial.
  destruct ev; simpl; now rewrite ?IH.
Qed.

Lemma logs_silent (logs : list llm_event) :
  forallb is_log logs = true ->
  invocations logs = 0 /\ sleeps logs = []
  /\ forall q, ~ In (Invoke q) logs.
Proof.
  induction logs as [|ev logs IH]; simpl; [intuition|].
  intros H. apply andb_true_iff in H. destruct H as [Hev Hl].
  destruct ev; try discriminate. destruct (IH Hl) as [? [? Hq]].
  repeat split; trivial. intros q [E|Hin]; [discriminate | now apply (Hq q)].
Qed.

Lemma handler_logs (max_retries : Z) (attempt : nat) (e : exn)
    (logs : list llm_event) :
  forallb is_log logs = true ->
  forallb is_log (iteration_logs (handler max_retries attempt e logs)) = true.
Proof.
  intros H. unfold handler.
  destruct (_ || _); simpl; rewrite forallb_app, H; reflexivity.
Qed.

Lemma after_invoke_logs (max_retries : Z) (attempt : nat) (r : reply) :
  forallb is_log (iteration_logs (after_invoke max_retries attempt r)) = true.
Proof.
  destruct r as [content|e]; unfold after_invoke.
  - destruct (is_error_page content).
    + destruct (_ <? _)%Z; [reflexivity | now apply handler_logs].
    + now destruct (0 <? attempt).
  - now apply handler_logs.
Qed.

(** The three ways an iteration can go. *)
Lemma after_invoke_cases (max_retries : Z) (attempt : nat) (r : reply) :
  exists logs,
    forallb is_log logs = true
    /\ ((asks_retry r = false
         /\ after_invoke max_retries attempt r = Leave (settled_by r) logs)
        \/ (asks_retry r = true /\ (Z.of_nat attempt >= max_retries - 1)%Z
            /\ after_invoke max_retries attempt r
               = Leave (Raised (raised_for (reply_exception r))) logs)
        \/ (asks_retry r = true /\ (Z.of_nat attempt < max_retries - 1)%Z
            /\ after_invoke max_retries attempt r
               = Continue (reply_exception r) logs)).
Proof.
  exists (iteration_logs (after_invoke max_retries attempt r)).
  split; [apply after_invoke_logs|].
  destruct r as [content|e]; unfold after_invoke, handler; simpl.
  - destruct (is_error_page content) eqn:Hp; [|left; now split].
    right. destruct (Z.ltb_spec (Z.of_nat attempt) (max_retries - 1)) as [Hlt|Hge].
    + right. now repeat split.
    + left. destruct (Z.geb_spec (Z.of_nat attempt) (max_retries - 1)); [|lia].
      simpl. repeat split; trivial. lia.
  - destruct (is_retryable e) eqn:Hr; simpl.
    + right.
      destruct (Z.geb_spec (Z.of_nat attempt) (max_retries - 1)) as [Hge|Hlt];
        simpl; [left | right]; repeat split; trivial; lia.
    + left. rewrite orb_true_r. now split.
Qed.

Lemma before_invoke_spec (max_retries : Z) (attempt : nat) :
  invocations (before_invoke max_retries attempt) = 0
  /\ sleeps (before_invoke max_retries attempt)
     = (if 0 <? attempt then [backoff attempt] else [])
  /\ forall q, ~ In (Invoke q) (before_invoke max_retries attempt).
Proof.
  unfold before_invoke. destruct (0 <? attempt); simpl; repeat split; trivial;
    intros q H; intuition discriminate.
Qed.

Section Loop.

Variable invoke : nat -> reply.
Variable full_prompt : string.
Variable max_retries : Z.

Let loop := retry_loop invoke full_prompt max_retries.

(** One iteration, unfolded. *)
Lemma loop_step (remaining attempt : nat) (last : option exn) :
  loop (S remaining) attempt last
  = match after_invoke max_retries attempt (invoke attempt) with
    | Leave o logs =>
        (o, ((before_invoke max_retries attempt ++ [Invoke full_prompt])
             ++ logs)%list)
    | Continue e logs =>
        (fst (loop remaining (S attempt) (Some e)),
         ((before_invoke max_retries attempt ++ [Invoke full_prompt])
          ++ logs ++ snd (loop remaining (S attempt) (Some e)))%list)
    end.
Proof.
  unfold loop. cbn [retry_loop].
  destruct (after_invoke max_retries attempt (invoke attempt)); trivial.
  now destruct (retry_loop invoke full_prompt max_retries remaining (S attempt)
                  (Some last_exception)).
Qed.

Lemma loop_bounded (remaining attempt : nat) (last : option exn) :
  invocations (snd (loop remaining attempt last)) <= remaining
  /\ forall q, In (Invoke q) (snd (loop remaining attempt last)) ->
               q = full_prompt.
Proof.
  revert attempt last. induction remaining as [|remaining IH]; intros attempt last.
  - unfold loop. simpl. destruct last; simpl; split; trivial; intros q [].
  - rewrite loop_step.
    destruct (before_invoke_spec max_retries attempt) as [B1 [_ B3]].
    pose proof (after_invoke_logs max_retries attempt (invoke attempt)) as Hl.
    destruct (after_invoke max_retries attempt (invoke attempt)) as [o logs|e logs];
      simpl in Hl; destruct (logs_silent logs Hl) as [L1 [_ L3]]; cbn [snd].
    + rewrite !invocations_app, B1, L1. simpl. split; [lia|].
      intros q H. apply in_app_or in H. destruct H as [H|H];
        [|now apply L3 in H].
      apply in_app_or in H. destruct H as [H|[H|[]]];
        [now apply B3 in H | now inversion H].
    + destruct (IH (S attempt) (Some e)) as [I1 I2].
      rewrite !invocations_app, B1, L1. simpl. split; [lia|].
      intros q H. apply in_app_or in H. destruct H as [H|H].
      * apply in_app_or in H. destruct H as [H|[H|[]]];
          [now apply B3 in H | now inversion H].
      * apply in_app_or in H. destruct H as [H|H];
          [now apply L3 in H | now apply I2].
Qed.

(** From the second attempt on, each call is preceded by its wait. *)
Lemma loop_sleeps (remaining attempt : nat) (last : option exn) :
  0 < attempt ->
  sleeps (snd (loop remaining attempt last))
  = map backoff (seq attempt (invocations (snd (loop remaining attempt last)))).
Proof.
  revert attempt last. induction remaining as [|remaining IH];
    intros attempt last Hpos.
  - unfold loop. simpl. now destruct last.
  - rewrite loop_step.
    destruct (before_invoke_spec max_retries attempt) as [B1 [B2 _]].
    apply Nat.ltb_lt in Hpos. rewrite Hpos in B2.
    pose proof (after_invoke_logs max_retries attempt (invoke attempt)) as Hl.
    destruct (after_invoke max_retries attempt (invoke attempt)) as [o logs|e logs];
      simpl in Hl; destruct (logs_silent logs Hl) as [L1 [L2 _]]; cbn [snd].
    + rewrite !sleeps_app, !invocations_app, B1, B2, L1, L2. reflexivity.
    + rewrite !sleeps_app, !invocations_app, B1, B2, L1, L2.
      rewrite (IH (S attempt) (Some e)) by lia. reflexivity.
Qed.

Lemma loop_returned (remaining attempt : nat) (last : option exn) (c : string) :
  fst (loop remaining attempt last) = Returned c ->
  exists k, attempt <= k < attempt + remaining
            /\ invoke k = Content c /\ is_error_page c = false.
Proof.
  revert attempt last. induction remaining as [|remaining IH]; intros attempt last.
  - unfold loop. simpl. destruct last; discriminate.
  - rewrite loop_step.
    destruct (after_invoke_cases max_retries attempt (invoke attempt))
      as [logs [_ [[Hr E]|[[Hr [_ E]]|[Hr [_ E]]]]]]; rewrite E; cbn [fst].
    + destruct (invoke attempt) as [c'|e] eqn:Hi; simpl in *; [|discriminate].
      rewrite Hr. intros H. inversion H; subst. exists attempt.
      repeat split; trivial; lia.
    + discriminate.
    + intros H. destruct (IH _ _ H) as [k [Hk Hc]]. exists k. split; [lia|trivial].
Qed.

(** The first reply that does not ask for a retry settles the call. *)
Lemma loop_settled (d remaining attempt : nat) (last : option exn) :
  (Z.of_nat (attempt + d) < max_retries)%Z ->
  d < remaining ->
  (forall j, attempt <= j < attempt + d -> asks_retry (invoke j) = true) ->
  asks_retry (invoke (attempt + d)) = false ->
  fst (loop remaining attempt last) = settled_by (invoke (attempt + d))
  /\ invocations (snd (loop remaining attempt last)) = S d.
Proof.
  revert remaining attempt last.
  induction d as [|d IH]; intros remaining attempt last Hmax Hrem Hbefore Hk;
    (destruct remaining as [|remaining]; [lia|]); rewrite loop_step;
    destruct (before_invoke_spec max_retries attempt) as [B1 _];
    destruct (after_invoke_cases max_retries attempt (invoke attempt))
      as [logs [Hl [[Hr E]|[[Hr [Ha E]]|[Hr [Ha E]]]]]];
    rewrite E; destruct (logs_silent logs Hl) as [L1 _]; cbn [fst snd].
  - rewrite Nat.add_0_r in *. rewrite !invocations_app, B1, L1. now split.
  - rewrite Nat.add_0_r in Hk. congruence.
  - rewrite Nat.add_0_r in Hk. congruence.
  - rewrite (Hbefore attempt) in Hr by lia. discriminate.
  - lia.
  - destruct (IH remaining (S attempt) (Some (reply_exception (invoke attempt))))
      as [I1 I2]; try lia.
    + intros j Hj. apply Hbefore. lia.
    + now rewrite Nat.add_succ_comm.
    + rewrite Nat.add_succ_comm in I1. rewrite I1.
      rewrite !invocations_app, B1, L1, I2. split; [trivial | simpl; lia].
Qed.

(** When every reply asks for a retry, the last attempt raises. *)
Lemma loop_exhausted (remaining attempt : nat) (last : option exn) :
  Z.of_nat (attempt + S remaining) = max_retries ->
  (forall j, attempt <= j < attempt + S remaining ->
             asks_retry (invoke j) = true) ->
  fst (loop (S remaining) attempt last)
  = Raised (raised_for (reply_exception (invoke (attempt + remaining))))
  /\ invocations (snd (loop (S remaining) attempt last)) = S remaining.
Proof.
  revert attempt last. induction remaining as [|remaining IH];
    intros attempt last Hmax Hall; rewrite loop_step;
    destruct (before_invoke_spec max_retries attempt) as [B1 _];
    destruct (after_invoke_cases max_retries attempt (invoke attempt))
      as [logs [Hl [[Hr E]|[[Hr [Ha E]]|[Hr [Ha E]]]]]];
    rewrite E; destruct (logs_silent logs Hl) as [L1 _]; cbn [fst snd];
    try (rewrite (Hall attempt) in Hr by lia; discriminate); try lia.
  - rewrite Nat.add_0_r, !invocations_app, B1, L1. now split.
  - destruct (IH (S attempt) (Some (reply_exception (invoke attempt))))
      as [I1 I2]; try lia.
    + intros j Hj. apply Hall. lia.
    + rewrite I1, !invocations_app, B1, L1, I2.
      replace (S attempt + remaining) with (attempt + S remaining) by lia.
      split; [trivial | simpl; lia].
Qed.

End Loop.

End LlmFacts.

(** X1. [send_prompt] never calls the service more than [max_retries]
    times, and every call carries the prompt it was given, unchanged. *)
Theorem send_prompt_bounded (env : Llm.environ) (llm : Llm.service)
    (full_prompt : string) (max_retries : Z) :
  let evs := snd (Llm.send_prompt env llm full_prompt max_retries) in
  (Z.of_nat (Llm.invocations evs) <= Z.max 0 max_retries)%Z
  /\ forall q, In (Llm.Invoke q) evs -> q = full_prompt.
Proof.
  unfold Llm.send_prompt. destruct (Llm.get_model env) as [e|client]; simpl.
  - split; [lia | intros q []].
  - destruct (LlmFacts.loop_bounded (llm client full_prompt) full_prompt
                max_retries (Z.to_nat max_retries) 0 None) as [H1 H2].
    split; [lia | exact H2].
Qed.

(** The waits of a call, from the calls it made. *)
Lemma send_prompt_schedule (env : Llm.environ) (llm : Llm.service)
    (full_prompt : string) (max_retries : Z) :
  let evs := snd (Llm.send_prompt env llm full_prompt max_retries) in
  Llm.sleeps evs = map Llm.backoff (seq 1 (Llm.invocations evs - 1)).
Proof.
  unfold Llm.send_prompt. destruct (Llm.get_model env) as [e|client]; simpl;
    trivial.
  destruct (Z.to_nat max_retries) as [|remaining]; trivial.
  rewrite (LlmFacts.loop_step (llm client full_prompt) full_prompt max_retries).
  pose proof (LlmFacts.after_invoke_logs max_retries 0
                (llm client full_prompt 0)) as Hl.
  destruct (Llm.after_invoke max_retries 0 (llm client full_prompt 0))
    as [o logs|e logs]; simpl in Hl;
    destruct (LlmFacts.logs_silent logs Hl) as [L1 [L2 _]]; cbn [snd].
  - cbn [Llm.before_invoke Nat.ltb Nat.leb app].
    change (Llm.Invoke full_prompt :: logs)
      with ([Llm.Invoke full_prompt] ++ logs)%list.
    now rewrite LlmFacts.sleeps_app, LlmFacts.invocations_app, L1, L2.
  - cbn [Llm.before_invoke Nat.ltb Nat.leb app].
    change (Llm.Invoke full_prompt
            :: logs ++ snd (Llm.retry_loop (llm client full_prompt) full_prompt
                              max_retries remaining 1 (Some e)))%list
      with ([Llm.Invoke full_prompt]
            ++ logs ++ snd (Llm.retry_loop (llm client full_prompt) full_prompt
                              max_retries remaining 1 (Some e)))%list.
    rewrite !LlmFacts.sleeps_app, !LlmFacts.invocations_app, L1, L2.
    rewrite (LlmFacts.loop_sleeps (llm client full_prompt) full_prompt
               max_retries remaining 1 (Some e)) by lia.
    simpl. now rewrite Nat.sub_0_r.
Qed.

(** X2. The waits of [send_prompt] follow the exponential schedule: there
    is no wait before the first call and the wait before call number
    [k + 1] is [2 ** k] seconds; so with [n] calls made the waits are
    2, 4, ..., [2 ** (n - 1)]. *)
Theorem send_prompt_backoff (env : Llm.environ) (llm : Llm.service)
    (full_prompt : string) (max_retries : Z) :
  let evs := snd (Llm.send_prompt env llm full_prompt max_retries) in
  Llm.sleeps evs = map Llm.backoff (seq 1 (Llm.invocations evs - 1)).
Proof. apply send_prompt_schedule. Qed.

Lemma sum_backoff (a n : nat) :
  fold_right Z.add 0%Z (map Llm.backoff (seq a n))
  = (2 ^ Z.of_nat (a + n) - 2 ^ Z.of_nat a)%Z.
Proof.
  revert a. induction n as [|n IH]; intros a.
  - simpl. rewrite Nat.add_0_r. lia.
  - cbn [seq map fold_right]. rewrite IH. unfold Llm.backoff.
    replace (Z.of_nat (S a + n)) with (Z.of_nat (a + S n)) by lia.
    replace (Z.of_nat (S a)) with (Z.succ (Z.of_nat a)) by lia.
    rewrite Z.pow_succ_r by lia. lia.
Qed.

(** X23. The waits of one call of [send_prompt] add up to less than
    [2 ** max_retries] seconds: at most 6 seconds with the default of 3
    attempts, and none at all with a single attempt. *)
Theorem send_prompt_total_wait (env : Llm.environ) (llm : Llm.service)
    (full_prompt : string) (max_retries : Z) :
  let evs := snd (Llm.send_prompt env llm full_prompt max_retries) in
  (0 <= fold_right Z.add 0 (Llm.sleeps evs) <= 2 ^ Z.max 1 max_retries - 2)%Z.
Proof.
  intros evs. subst evs.
  rewrite (send_prompt_schedule env llm full_prompt max_retries), sum_backoff.
  assert (Hn : (Z.of_nat (Llm.invocations
                            (snd (Llm.send_prompt env llm full_prompt
                                    max_retries)))
                <= Z.max 0 max_retries)%Z).
  { unfold Llm.send_prompt. destruct (Llm.get_model env) as [e|client];
      [simpl; lia|].
    destruct (LlmFacts.loop_bounded (llm client full_prompt) full_prompt
                max_retries (Z.to_nat max_retries) 0 None) as [H1 _]. lia. }
  set (n := Llm.invocations _) in *.
  change (2 ^ Z.of_nat 1)%Z with 2%Z.
  assert (Hpow : (2 ^ Z.of_nat (1 + (n - 1)) <= 2 ^ Z.max 1 max_retries)%Z)
    by (apply Z.pow_le_mono_r; lia).
  assert (Hlow : (2 ^ 1 <= 2 ^ Z.of_nat (1 + (n - 1)))%Z)
    by (apply Z.pow_le_mono_r; lia).
  change (2 ^ 1)%Z with 2%Z in Hlow. lia.
Qed.

(** X3. [send_prompt] stops at the first reply that is neither an error
    page nor a transient failure: when attempts [0 .. k-1] all ask for a
    retry and attempt [k < max_retries] does not, the service is called
    exactly [k + 1] times and the call ends as that reply decides, with
    its content returned, or with the exception mapped from its failure
    raised. *)
Theorem send_prompt_settled (env : Llm.environ) (llm : Llm.service)
    (full_prompt : string) (max_retries : Z) (client : Llm.chat_model)
    (k : nat) :
  Llm.get_model env = inr client ->
  (Z.of_nat k < max_retries)%Z ->
  (forall j, j < k -> Llm.asks_retry (llm client full_prompt j) = true) ->
  Llm.asks_retry (llm client full_prompt k) = false ->
  fst (Llm.send_prompt env llm full_prompt max_retries)
  = Llm.settled_by (llm client full_prompt k)
  /\ Llm.invocations (snd (Llm.send_prompt env llm full_prompt max_retries))
     = S k.
Proof.
  intros Hm Hk Hbefore Hsettle. unfold Llm.send_prompt. rewrite Hm.
  apply (LlmFacts.loop_settled (llm client full_prompt) full_prompt max_retries
           k (Z.to_nat max_retries) 0 None); simpl; trivial; try lia.
  intros j Hj. apply Hbefore. lia.
Qed.

Lemma send_prompt_settled_witness :
  fst (Llm.send_prompt Llm.demo_env Llm.flaky "P" 3)
  = Llm.Returned "# Documentation"
  /\ Llm.invocations (snd (Llm.send_prompt Llm.demo_env Llm.flaky "P" 3)) = 3.
Proof.
  apply (send_prompt_settled Llm.demo_env Llm.flaky "P" 3
           (Llm.mk_chat_model "eu.anthropic.claude" "secret"
              "https://llm.srvext.ncoindev.net/v1" 0 300 2) 2).
  - reflexivity.
  - lia.
  - intros j Hj. destruct j as [|[|j]]; [reflexivity | reflexivity | lia].
  - reflexivity.
Defined.

(** X4. When every reply asks for a retry, [send_prompt] calls the service
    exactly [max_retries] times and raises the exception mapped from the
    last reply. *)
Theorem send_prompt_exhausted (env : Llm.environ) (llm : Llm.service)
    (full_prompt : string) (max_retries : Z) (client : Llm.chat_model) :
  Llm.get_model env = inr client ->
  (1 <= max_retries)%Z ->
  (forall j, (Z.of_nat j < max_retries)%Z ->
             Llm.asks_retry (llm client full_prompt j) = true) ->
  fst (Llm.send_prompt env llm full_prompt max_retries)
  = Llm.Raised
      (Llm.raised_for
         (Llm.reply_exception
            (llm client full_prompt (Z.to_nat max_retries - 1))))
  /\ Llm.invocations (snd (Llm.send_prompt env llm full_prompt max_retries))
     = Z.to_nat max_retries.
Proof.
  intros Hm Hpos Hall. unfold Llm.send_prompt. rewrite Hm.
  destruct (Z.to_nat max_retries) as [|remaining] eqn:En; [lia|].
  replace (S remaining - 1) with (0 + remaining) by lia.
  apply (LlmFacts.loop_exhausted (llm client full_prompt) full_prompt
           max_retries remaining 0 None); simpl; [lia|].
  intros j Hj. apply Hall. lia.
Qed.

Lemma send_prompt_exhausted_witness :
  fst (Llm.send_prompt Llm.demo_env Llm.flaky "P" 2) = Llm.Raised Llm.timed_out
  /\ Llm.invocations (snd (Llm.send_prompt Llm.demo_env Llm.flaky "P" 2)) = 2.
Proof.
  apply (send_prompt_exhausted Llm.demo_env Llm.flaky "P" 2
           (Llm.mk_chat_model "eu.anthropic.claude" "secret"
              "https://llm.srvext.ncoindev.net/v1" 0 300 2)).
  - reflexivity.
  - lia.
  - intros j Hj. destruct j as [|[|j]]; [reflexivity | reflexivity | lia].
Defined.

(** X5. An error page on every attempt never reaches the caller as the
    gateway message built for it: the exception raised at the last
    attempt passes through the handler, whose test for "timeout" in the
    message turns it into the "LLM request timed out" exception. *)
Theorem send_prompt_error_pages (env : Llm.environ) (llm : Llm.service)
    (full_prompt : string) (max_retries : Z) (client : Llm.chat_model) :
  Llm.get_model env = inr client ->
  (1 <= max_retries)%Z ->
  (forall j, (Z.of_nat j < max_retries)%Z ->
             exists page, llm client full_prompt j = Llm.Content page
                          /\ Llm.is_error_page page = true) ->
  fst (Llm.send_prompt env llm full_prompt max_retries)
  = Llm.Raised Llm.timed_out
  /\ Llm.invocations (snd (Llm.send_prompt env llm full_prompt max_retries))
     = Z.to_nat max_retries.
Proof.
  intros Hm Hpos Hall. unfold Llm.send_prompt. rewrite Hm.
  destruct (Z.to_nat max_retries) as [|remaining] eqn:En; [lia|].
  destruct (LlmFacts.loop_exhausted (llm client full_prompt) full_prompt
              max_retries remaining 0 None) as [H1 H2].
  - simpl. lia.
  - intros j Hj. destruct (Hall j) as [page [E Hp]]; [lia|]. now rewrite E.
  - split; [|exact H2]. rewrite H1. simpl.
    destruct (Hall remaining) as [page [E _]]; [lia|]. now rewrite E.
Qed.

Lemma send_prompt_error_pages_witness :
  fst (Llm.send_prompt Llm.demo_env Llm.gateway_page "P" 3)
  = Llm.Raised Llm.timed_out
  /\ Llm.invocations (snd (Llm.send_prompt Llm.demo_env Llm.gateway_page "P" 3))
     = 3.
Proof.
  apply (send_prompt_error_pages Llm.demo_env Llm.gateway_page "P" 3
           (Llm.mk_chat_model "eu.anthropic.claude" "secret"
              "https://llm.srvext.ncoindev.net/v1" 0 300 2)).
  - reflexivity.
  - lia.
  - intros j _. eexists. split; reflexivity.
Defined.

(** X6. What [send_prompt] returns is the content of a reply the service
    gave to one of the attempts, and never an error page: it is empty, or
    its stripped form does not start with "<" and it does not contain
    "Gateway Time-out". *)
Theorem send_prompt_returns_reply (env : Llm.environ) (llm : Llm.service)
    (full_prompt : string) (max_retries : Z) (content : string) :
  fst (Llm.send_prompt env llm full_prompt max_retries) = Llm.Returned content ->
  Llm.is_error_page content = false
  /\ exists client k,
       Llm.get_model env = inr client
       /\ (Z.of_nat k < max_retries)%Z
       /\ llm client full_prompt k = Llm.Content content.
Proof.
  unfold Llm.send_prompt. destruct (Llm.get_model env) as [e|client];
    [discriminate|].
  intros H.
  destruct (LlmFacts.loop_returned (llm client full_prompt) full_prompt
              max_retries _ _ _ _ H) as [k [Hk [Hc Hp]]].
  split; trivial. exists client, k. repeat split; trivial. lia.
Qed.

Lemma send_prompt_returns_reply_witness :
  Llm.is_error_page "# Documentation" = false
  /\ exists client k,
       Llm.get_model Llm.demo_env = inr client
       /\ (Z.of_nat k < 3)%Z
       /\ Llm.flaky client "P" k = Llm.Content "# Documentation".
Proof.
  apply (send_prompt_returns_reply Llm.demo_env Llm.flaky "P" 3).
  reflexivity.
Defined.

(** X7. [get_model] gives a client exactly when [MODEL_NAME] is set and
    starts with "eu.anthropic" and [ANTHROPIC_API_KEY] is set and not
    empty; otherwise it raises a [ValueError], and [send_prompt] raises it
    without calling the service or waiting. *)
Theorem get_model_configured (env : Llm.environ) :
  ((exists client, Llm.get_model env = inr client)
   <-> (exists name key,
          Llm.MODEL_NAME env = Some name
          /\ PyStr.startswith name "eu.anthropic" = true
          /\ Llm.ANTHROPIC_API_KEY env = Some key
          /\ key <> ""))
  /\ (forall e llm full_prompt max_retries,
         Llm.get_model env = inl e ->
         Llm.exception_type e = "ValueError"
         /\ Llm.send_prompt env llm full_prompt max_retries
            = (Llm.Raised e, [])).
Proof.
  split.
  - unfold Llm.get_model. split.
    + intros [client H]. destruct (Llm.MODEL_NAME env) as [name|]; [|discriminate].
      destruct (PyStr.startswith name "eu.anthropic") eqn:Hs; [|discriminate].
      destruct (Llm.ANTHROPIC_API_KEY env) as [[|c key]|]; try discriminate.
      exists name, (String c key). repeat split; trivial. discriminate.
    + intros [name [key [Hn [Hs [Hk Hne]]]]]. rewrite Hn, Hs, Hk.
      destruct key as [|c key]; [congruence|]. eexists. reflexivity.
  - intros e llm full_prompt max_retries H. unfold Llm.send_prompt. rewrite H.
    split; trivial. unfold Llm.get_model in H.
    destruct (Llm.MODEL_NAME env) as [name|]; [|now inversion H].
    destruct (PyStr.startswith name "eu.anthropic"); [|now inversion H].
    destruct (Llm.ANTHROPIC_API_KEY env) as [[|c key]|]; now inversion H.
Qed.

Lemma get_model_configured_witness :
  (exists client, Llm.get_model Llm.demo_env = inr client)
  /\ Llm.send_prompt (Llm.mk_environ (Some "gpt-4") (Some "secret"))
       Llm.flaky "P" 3
     = (Llm.Raised (Llm.ValueError "Unbekanntes Modell: gpt-4"), []).
Proof.
  split.
  - destruct (get_model_configured Llm.demo_env) as [[_ H] _]. apply H.
    exists "eu.anthropic.claude", "secret". repeat split; discriminate.
  - destruct (get_model_configured (Llm.mk_environ (Some "gpt-4") (Some "secret")))
      as [_ H].
    apply (H (Llm.ValueError "Unbekanntes Modell: gpt-4")). reflexivity.
Defined.

(** X8. With [max_retries] zero or negative the loop body never runs:
    a configured [send_prompt] raises "LLM request failed after all
    retries" without a single call to the service. *)
Theorem send_prompt_no_attempt (env : Llm.environ) (llm : Llm.service)
    (full_prompt : string) (max_retries : Z) (client : Llm.chat_model) :
  Llm.get_model env = inr client ->
  (max_retries <= 0)%Z ->
  Llm.send_prompt env llm full_prompt max_retries
  = (Llm.Raised Llm.all_retries_failed, []).
Proof.
  intros Hm Hle. unfold Llm.send_prompt. rewrite Hm.
  replace (Z.to_nat max_retries) with 0 by lia. reflexivity.
Qed.

Lemma send_prompt_no_attempt_witness :
  Llm.send_prompt Llm.demo_env Llm.flaky "P" 0
  = (Llm.Raised Llm.all_retries_failed, []).
Proof.
  apply (send_prompt_no_attempt Llm.demo_env Llm.flaky "P" 0
           (Llm.mk_chat_model "eu.anthropic.claude" "secret"
              "https://llm.srvext.ncoindev.net/v1" 0 300 2)).
  - reflexivity.
  - lia.
Defined.

(** ** The content selector *)

Lemma reads_app (l1 l2 : list event) :
  reads (l1 ++ l2) = (reads l1 ++ reads l2)%list.
Proof.
  induction l1 as [|ev l1 IH]; simpl; trivial.
  destruct ev; simpl; now rewrite ?IH.
Qed.

Lemma code_headers_app (l1 l2 : list part) :
  code_headers (l1 ++ l2) = (code_headers l1 ++ code_headers l2)%list.
Proof.
  induction l1 as [|p l1 IH]; simpl; trivial.
  destruct p; simpl; now rewrite ?IH.
Qed.

Lemma code_headers_structure (target_dir : string) (s : structure) :
  code_headers (structure_parts target_dir s) = [].
Proof.
  assert (H : forall l, code_headers (map PDirName l) = []).
  { intros l. induction l; simpl; trivial. }
  unfold structure_parts. rewrite code_headers_app.
  destruct (directories s) as [|d ds]; trivial.
  cbn [code_headers app]. apply H.
Qed.

Lemma reads_survey (fs : fs_view) (target_dir : string) (max_depth : Z) :
  reads (snd (get_repository_structure fs target_dir max_depth)) = [].
Proof.
  unfold get_repository_structure.
  destruct (fs target_dir) as [w|]; trivial.
  destruct (survey_loop _ _ _ _ _) as [fl dl]. now destruct (raised w).
Qed.

Lemma reads_collect (repo_parts : list string) (max_file_size : Z)
    (items : list item) :
  reads (snd (collect_code_files repo_parts max_file_size items)) = [].
Proof.
  induction items as [|x items IH]; cbn [collect_code_files]; trivial.
  destruct (collect_code_files repo_parts max_file_size items) as [cf evs].
  cbn [snd] in IH.
  destruct (in_skip_directory repo_parts x); trivial.
  destruct (is_skip_file x); trivial.
  destruct (is_file x && PyStr.mem (item_suffix x) code_extensions); trivial.
  destruct (st_size x) as [sz|]; [destruct (sz <=? max_file_size)%Z|]; trivial.
Qed.

Lemma read_files_views (max_file_size : Z) (cs : list candidate) :
  reads (snd (read_files max_file_size cs)) = map fst cs
  /\ code_headers (fst (read_files max_file_size cs)) = [].
Proof.
  induction cs as [|[file_path size] cs [IH1 IH2]]; simpl; [now split|].
  destruct (read_files max_file_size cs) as [ps' evs']. simpl in IH1, IH2.
  destruct (text file_path) as [whole|e]; simpl.
  - destruct (fits_ssize max_file_size); simpl; [|now rewrite IH1, IH2].
    destruct (is_document file_path); simpl.
    + rewrite code_headers_app. simpl.
      destruct (Z.of_nat _ >=? max_file_size)%Z; simpl; now rewrite IH1, IH2.
    + now rewrite IH1, IH2.
  - now rewrite IH1, IH2.
Qed.

(** The sections, the reads and the header of a run below an existing
    root. *)
Lemma content_parts_views (fs : fs_view) (target_dir : string) (w : walk)
    (max_files max_file_size : Z) :
  let run := content_parts fs target_dir w max_files max_file_size in
  let selected :=
    selection (PyPath.parts target_dir) max_files max_file_size (yielded w) in
  match raised w with
  | Some _ =>
      section_files (fst run) = [] /\ reads (snd run) = []
      /\ code_headers (fst run) = []
  | None =>
      section_files (fst run) = map fst (fst selected)
      /\ reads (snd run) = map fst (fst selected)
      /\ code_headers (fst run)
         = [(List.length (fst selected), (snd selected / 1024)%Z)]
  end.
Proof.
  unfold content_parts.
  pose proof (reads_survey fs target_dir 2) as Hsurvey.
  destruct (get_repository_structure fs target_dir 2) as [s ev_survey].
  cbn [snd] in Hsurvey.
  pose proof (reads_collect (PyPath.parts target_dir) max_file_size (yielded w))
    as Hstat.
  destruct (collect_code_files (PyPath.parts target_dir) max_file_size (yielded w))
    as [cf ev_stat].
  cbn [snd] in Hstat.
  destruct (raised w) as [e|]; cbn [fst snd].
  - rewrite section_files_app, section_files_structure, code_headers_app,
      code_headers_structure.
    rewrite reads_app, Hsurvey. cbn [reads app].
    rewrite reads_app, Hstat. now repeat split.
  - destruct (selection (PyPath.parts target_dir) max_files max_file_size
                (yielded w)) as [code_files total_size].
    destruct (read_files_spec max_file_size code_files) as [R1 _].
    destruct (read_files_views max_file_size code_files) as [R2 R3].
    destruct (read_files max_file_size code_files) as [body ev_read].
    cbn [fst snd] in *.
    change (PCodeHeader (List.length code_files) (total_size / 1024) :: body)
      with ([PCodeHeader (List.length code_files) (total_size / 1024)] ++ body)%list.
    rewrite !section_files_app, section_files_structure, !code_headers_app,
      code_headers_structure, reads_app, Hsurvey.
    cbn [reads app section_files code_headers].
    rewrite reads_app, Hstat, R1, R2, R3. now repeat split.
Qed.

Lemma select_files_count (max_files : Z) (cs : list candidate) :
  (Z.of_nat (List.length (fst (select_files max_files cs))) <= Z.max 0 max_files)%Z.
Proof.
  unfold select_files.
  destruct (select_loop_greedy max_files cs [] 0%Z) as [sel [E G]].
  rewrite E. cbn [fst app].
  destruct (greedy_count _ _ _ _ _ G) as [->|H]; simpl in *; lia.
Qed.

Lemma extract_run_views (fs : fs_view) (target_dir : string)
    (max_files max_file_size : Z) :
  match fs target_dir with
  | None =>
      file_sections fs target_dir max_files max_file_size = []
      /\ reads (snd (extract_run fs target_dir max_files max_file_size)) = []
  | Some w =>
      let selected :=
        match raised w with
        | Some _ => []
        | None =>
            map fst (fst (selection (PyPath.parts target_dir) max_files
                            max_file_size (yielded w)))
        end in
      file_sections fs target_dir max_files max_file_size = selected
      /\ reads (snd (extract_run fs target_dir max_files max_file_size))
         = selected
  end.
Proof.
  unfold file_sections, extract_run.
  destruct (fs target_dir) as [w|]; [|now split].
  pose proof (content_parts_views fs target_dir w max_files max_file_size) as V.
  destruct (content_parts fs target_dir w max_files max_file_size) as [ps evs].
  cbn [fst snd reads] in *.
  destruct (raised w); destruct V as [V1 [V2 _]]; now split.
Qed.

(** X9. Count invariant: the value returned never has more [### File:]
    sections than [max_files], and has none when [max_files] is zero or
    negative. *)
Theorem file_sections_count (fs : fs_view) (target_dir : string)
    (max_files max_file_size : Z) :
  (Z.of_nat (List.length (file_sections fs target_dir max_files max_file_size))
   <= Z.max 0 max_files)%Z.
Proof.
  pose proof (extract_run_views fs target_dir max_files max_file_size) as V.
  destruct (fs target_dir) as [w|]; [|destruct V as [-> _]; simpl; lia].
  destruct V as [-> _]. destruct (raised w); [simpl; lia|].
  rewrite length_map. apply select_files_count.
Qed.

(** X10. The files opened and read are exactly the files that get a
    section, once each and in the order of the sections: no file is read
    and then left out, and a file whose read fails keeps its section. *)
Theorem reads_are_sections (fs : fs_view) (target_dir : string)
    (max_files max_file_size : Z) :
  reads (snd (extract_run fs target_dir max_files max_file_size))
  = file_sections fs target_dir max_files max_file_size.
Proof.
  pose proof (extract_run_views fs target_dir max_files max_file_size) as V.
  destruct (fs target_dir) as [w|]; destruct V as [V1 V2]; congruence.
Qed.

(** X11. Every file that gets a section was yielded by the walk of an
    existing root, is a regular file with a recognized extension, lies
    under no skip directory, does not bear a skip name, and has a [stat]
    size of at most [max_file_size]. *)
Theorem file_sections_qualified (fs : fs_view) (target_dir : string)
    (max_files max_file_size : Z) (it : item) :
  In it (file_sections fs target_dir max_files max_file_size) ->
  exists w size,
    fs target_dir = Some w
    /\ In it (yielded w)
    /\ in_skip_directory (PyPath.parts target_dir) it = false
    /\ is_skip_file it = false
    /\ is_file it = true
    /\ PyStr.mem (item_suffix it) code_extensions = true
    /\ st_size it = Some size
    /\ (size <= max_file_size)%Z.
Proof.
  pose proof (extract_run_views fs target_dir max_files max_file_size) as V.
  destruct (fs target_dir) as [w|]; destruct V as [-> _]; [|intros []].
  destruct (raised w); [intros []|]. intros H.
  apply in_map_iff in H. destruct H as [[x size] [E H]]. simpl in E; subst x.
  apply selection_incl, collect_code_files_spec in H.
  destruct H as [H1 [H2 [H3 [H4 [H5 H6]]]]].
  unfold selector_skips in H2. apply orb_false_iff in H2. destruct H2 as [H2 H2'].
  exists w, size. now repeat split.
Qed.

Lemma file_sections_qualified_witness :
  exists w size,
    Demo.fs "/tmp/repo" = Some w
    /\ In (Demo.file ["main.py"] 12 "main()") (yielded w)
    /\ in_skip_directory (PyPath.parts "/tmp/repo")
         (Demo.file ["main.py"] 12 "main()") = false
    /\ is_skip_file (Demo.file ["main.py"] 12 "main()") = false
    /\ is_file (Demo.file ["main.py"] 12 "main()") = true
    /\ PyStr.mem (item_suffix (Demo.file ["main.py"] 12 "main()"))
         code_extensions = true
    /\ st_size (Demo.file ["main.py"] 12 "main()") = Some size
    /\ (size <= 10000)%Z.
Proof.
  apply (file_sections_qualified Demo.fs "/tmp/repo" 50 10000).
  vm_compute. tauto.
Defined.

Lemma greedy_sorted (R : candidate -> candidate -> Prop) (max_files : Z)
    n t cs sel :
  greedy max_files n t cs sel -> StronglySorted R cs -> StronglySorted R sel.
Proof.
  induction 1 as [n t|n t cs Hn|n t c cs sel Hn Ht G IH|n t c cs sel Hn Ht G IH];
    intros Hs; try constructor.
  - inversion Hs; subst. auto.
  - inversion Hs; subst. auto.
  - inversion Hs as [|? ? Hs' Hall]; subst.
    rewrite Forall_forall in *. intros x Hx. apply Hall.
    now apply (greedy_incl _ _ _ _ _ G).
Qed.

(** X12. The selected files are in ascending order of their priority
    keys, and the sections of a run whose walk raised nothing are the
    selected files in that order: a file never stands before a file of
    better priority. *)
Theorem sections_in_priority_order (fs : fs_view) (target_dir : string)
    (max_files max_file_size : Z) (w : walk) :
  fs target_dir = Some w ->
  raised w = None ->
  let repo_parts := PyPath.parts target_dir in
  let selected :=
    fst (selection repo_parts max_files max_file_size (yielded w)) in
  file_sections fs target_dir max_files max_file_size = map fst selected
  /\ StronglySorted (key_le key_lt (file_priority repo_parts)) selected.
Proof.
  intros Hw Hr repo_parts selected.
  pose proof (extract_run_views fs target_dir max_files max_file_size) as V.
  rewrite Hw, Hr in V. destruct V as [V _]. split; [exact V|].
  subst selected. unfold selection, select_files.
  destruct (select_loop_greedy max_files
              (sort_code_files repo_parts
                 (fst (collect_code_files repo_parts max_file_size (yielded w))))
              [] 0%Z) as [sel [E G]].
  rewrite E. cbn [fst app].
  apply (greedy_sorted _ _ _ _ _ _ G).
  apply list_sort_sorted; [exact key_lt_asym | exact key_le_trans].
Qed.

Lemma sections_in_priority_order_witness :
  let repo_parts := PyPath.parts "/tmp/repo" in
  let selected := fst (selection repo_parts 50 10000 (yielded Demo.repo_walk)) in
  file_sections Demo.fs "/tmp/repo" 50 10000 = map fst selected
  /\ StronglySorted (key_le key_lt (file_priority repo_parts)) selected.
Proof.
  exact (sections_in_priority_order Demo.fs "/tmp/repo" 50 10000 Demo.repo_walk
           eq_refl eq_refl).
Defined.

Lemma render_app (l1 l2 : list part) : render (l1 ++ l2) = render l1 ++ render l2.
Proof.
  unfold render, PyStr.join. induction l1 as [|p l1 IH]; trivial.
  assert (C : forall x l, String.concat "" (x :: l) = x ++ String.concat "" l).
  { intros x [|y l]; simpl; [now rewrite StrFacts.append_nil_r | trivial]. }
  cbn [app map]. rewrite !C, IH. now rewrite StrFacts.append_assoc.
Qed.

(** X13. When the walk of the selector raises, everything collected so
    far is dropped: the value returned is the structure header followed by
    the line "Error extracting content: ..." with the message of the
    exception, it has no [## Code Files] header and no file section, no
    file is read, and the error is logged. *)
Theorem walk_error_drops_files (fs : fs_view) (target_dir : string)
    (max_files max_file_size : Z) (w : walk) (e : string) :
  fs target_dir = Some w ->
  raised w = Some e ->
  let s := fst (get_repository_structure fs target_dir 2) in
  let run := extract_run fs target_dir max_files max_file_size in
  extract_repository_content fs target_dir max_files max_file_size
  = render (structure_parts target_dir s)
    ++ PyStr.nl ++ "Error extracting content: " ++ e ++ PyStr.nl
  /\ file_sections fs target_dir max_files max_file_size = []
  /\ reads (snd run) = []
  /\ (forall ps, fst run = Some ps -> code_headers ps = [])
  /\ In (EvLog ("Error extracting repository content: " ++ e)) (snd run).
Proof.
  intros Hw Hr s run.
  pose proof (extract_run_views fs target_dir max_files max_file_size) as V.
  rewrite Hw, Hr in V. destruct V as [V1 V2].
  pose proof (content_parts_views fs target_dir w max_files max_file_size) as C.
  rewrite Hr in C. destruct C as [_ [_ C3]].
  subst run s. unfold extract_repository_content, extract_run in *.
  rewrite Hw in *. unfold content_parts in *.
  destruct (get_repository_structure fs target_dir 2) as [s ev_survey].
  destruct (collect_code_files (PyPath.parts target_dir) max_file_size (yielded w))
    as [cf ev_stat].
  rewrite Hr in *. cbn [fst snd] in *.
  split; [|split; [exact V1 | split; [exact V2 | split]]].
  - rewrite render_app. reflexivity.
  - intros ps H. inversion H; subst. exact C3.
  - right. apply in_or_app. right. right. apply in_or_app. right. now left.
Qed.

Lemma walk_error_drops_files_witness :
  let fs : fs_view :=
    fun _ => Some (mk_walk [Demo.file ["main.py"] 12 "main()"]
                     (Some "[Errno 5] Input/output error")) in
  file_sections fs "/tmp/repo" 50 10000 = []
  /\ reads (snd (extract_run fs "/tmp/repo" 50 10000)) = [].
Proof.
  destruct (walk_error_drops_files
              (fun _ => Some (mk_walk [Demo.file ["main.py"] 12 "main()"]
                                (Some "[Errno 5] Input/output error")))
              "/tmp/repo" 50 10000
              (mk_walk [Demo.file ["main.py"] 12 "main()"]
                 (Some "[Errno 5] Input/output error"))
              "[Errno 5] Input/output error" eq_refl eq_refl)
    as [_ [H1 [H2 _]]].
  now split.
Defined.

(** X14. The [## Code Files] header tells the truth about the count: the
    number it announces is the number of file sections in the same value,
    and the kilobytes it announces never exceed 488 (500,000 // 1024). *)
Theorem code_header_consistent (fs : fs_view) (target_dir : string)
    (max_files max_file_size : Z) (ps : list part) (n : nat) (kilobytes : Z) :
  fst (extract_run fs target_dir max_files max_file_size) = Some ps ->
  In (n, kilobytes) (code_headers ps) ->
  code_headers ps = [(n, kilobytes)]
  /\ n = List.length (section_files ps)
  /\ (kilobytes <= 488)%Z.
Proof.
  unfold extract_run. destruct (fs target_dir) as [w|]; [|discriminate].
  pose proof (content_parts_views fs target_dir w max_files max_file_size) as C.
  destruct (content_parts fs target_dir w max_files max_file_size) as [ps' evs].
  cbn [fst snd] in *. intros H. inversion H; subst ps'. clear H.
  destruct (raised w); destruct C as [C1 [_ C3]]; rewrite C3; [intros []|].
  intros [E|[]]. inversion E; subst. rewrite C1, length_map.
  repeat split; trivial.
  unfold selection, select_files.
  destruct (select_loop_greedy max_files
              (sort_code_files (PyPath.parts target_dir)
                 (fst (collect_code_files (PyPath.parts target_dir)
                         max_file_size (yielded w)))) [] 0%Z) as [sel [Es G]].
  rewrite Es. cbn [snd].
  pose proof (greedy_budget _ _ _ _ _ G) as B. unfold max_total_size in B.
  assert (Hb : (0 + total_bytes sel <= 500000)%Z) by (apply B; lia).
  assert (Hk : ((0 + total_bytes sel) / 1024 < 489)%Z)
    by (apply Z.div_lt_upper_bound; lia).
  lia.
Qed.

Lemma code_header_consistent_witness :
  exists ps,
    fst (extract_run Demo.fs "/tmp/repo" 50 10000) = Some ps
    /\ code_headers ps = [(4, 0%Z)]
    /\ 4 = List.length (section_files ps).
Proof.
  eexists. split; [reflexivity|].
  destruct (code_header_consistent Demo.fs "/tmp/repo" 50 10000 _ 4 0%Z eq_refl)
    as [H1 [H2 _]].
  - vm_compute. tauto.
  - split; [exact H1 | exact H2].
Defined.

Lemma collect_NoDup (repo_parts : list string) (max_file_size : Z)
    (items : list item) :
  NoDup items ->
  NoDup (map fst (fst (collect_code_files repo_parts max_file_size items))).
Proof.
  induction 1 as [|x items Hx Hnd IH]; [constructor|].
  pose proof (collect_code_files_spec repo_parts max_file_size items x) as Hin.
  cbn [collect_code_files].
  destruct (collect_code_files repo_parts max_file_size items) as [cf evs].
  cbn [fst] in *.
  destruct (in_skip_directory repo_parts x); trivial.
  destruct (is_skip_file x); trivial.
  destruct (is_file x && PyStr.mem (item_suffix x) code_extensions); trivial.
  destruct (st_size x) as [sz|]; trivial.
  destruct (sz <=? max_file_size)%Z; trivial.
  cbn [fst map]. constructor; trivial.
  intros H. apply in_map_iff in H. destruct H as [[y size] [E H]].
  simpl in E; subst y. apply Hin in H. tauto.
Qed.

Lemma greedy_NoDup (max_files : Z) n t cs sel :
  greedy max_files n t cs sel ->
  NoDup (map fst cs) -> NoDup (map fst sel).
Proof.
  induction 1 as [n t|n t cs Hn|n t c cs sel Hn Ht G IH|n t c cs sel Hn Ht G IH];
    intros Hnd; try constructor.
  - inversion Hnd; subst. auto.
  - inversion Hnd as [|? ? Hc Hnd']; subst. intros H. apply Hc.
    apply in_map_iff in H. destruct H as [y [E H]].
    apply in_map_iff. exists y. split; trivial.
    now apply (greedy_incl _ _ _ _ _ G).
  - inversion Hnd; subst. auto.
Qed.

(** X15. No file is included twice: when the walk yields no item twice,
    the file sections are pairwise distinct. *)
Theorem file_sections_NoDup (fs : fs_view) (target_dir : string)
    (max_files max_file_size : Z) :
  (forall w, fs target_dir = Some w -> NoDup (yielded w)) ->
  NoDup (file_sections fs target_dir max_files max_file_size).
Proof.
  intros Hnd.
  pose proof (extract_run_views fs target_dir max_files max_file_size) as V.
  destruct (fs target_dir) as [w|]; destruct V as [-> _]; [|constructor].
  destruct (raised w); [constructor|].
  unfold selection, select_files.
  destruct (select_loop_greedy max_files
              (sort_code_files (PyPath.parts target_dir)
                 (fst (collect_code_files (PyPath.parts target_dir)
                         max_file_size (yielded w)))) [] 0%Z) as [sel [E G]].
  rewrite E. cbn [fst app]. apply (greedy_NoDup _ _ _ _ _ G).
  apply (Permutation_NoDup
           (l := map fst (fst (collect_code_files (PyPath.parts target_dir)
                                 max_file_size (yielded w))))).
  - apply Permutation_map, Permutation_sym. unfold sort_code_files.
    apply list_sort_perm.
  - apply collect_NoDup, Hnd. reflexivity.
Qed.

Lemma file_sections_NoDup_witness :
  NoDup (file_sections Demo.fs "/tmp/repo" 50 10000).
Proof.
  apply (file_sections_NoDup Demo.fs "/tmp/repo" 50 10000).
  intros w H. vm_compute in H. inversion H; subst. cbn [yielded].
  repeat (constructor; [simpl; intuition discriminate|]). constructor.
Defined.

(** X16. A better tier always wins: a candidate of a lower tier sorts
    before a candidate of a higher tier whatever their sizes and names, so
    a readme (tier 0) sorts before every file that is not one. *)
Theorem lower_tier_sorts_first (repo_parts : list string) (a b : candidate) :
  (tier (file_priority repo_parts a) < tier (file_priority repo_parts b))%Z ->
  key_lt (file_priority repo_parts a) (file_priority repo_parts b) = true
  /\ sorts_first repo_parts a b.
Proof.
  intros H.
  assert (K : key_lt (file_priority repo_parts a) (file_priority repo_parts b)
              = true).
  { destruct (file_priority repo_parts a) as [[ta sa] na].
    destruct (file_priority repo_parts b) as [[tb sb] nb].
    unfold tier in H. cbn [fst] in H. unfold key_lt.
    destruct (Z.eqb_spec ta tb); [lia | now apply Z.ltb_lt]. }
  split; [exact K | now apply key_lt_sorts_first].
Qed.

Lemma lower_tier_sorts_first_witness :
  sorts_first (PyPath.parts "/tmp/repo")
    (Demo.file ["docs"; "ReadMe.txt"] 9000 "", 9000%Z)
    (Demo.file ["a.py"] 1 "", 1%Z).
Proof.
  apply (lower_tier_sorts_first (PyPath.parts "/tmp/repo")
           (Demo.file ["docs"; "ReadMe.txt"] 9000 "", 9000%Z)
           (Demo.file ["a.py"] 1 "", 1%Z)).
  vm_compute. reflexivity.
Defined.

Lemma select_loop_all (max_files : Z) (cs acc : list candidate) (t : Z) :
  Forall (fun c => 0 <= snd c)%Z cs ->
  (Z.of_nat (List.length acc + List.length cs) <= max_files)%Z ->
  (t + total_bytes cs <= max_total_size)%Z ->
  select_loop max_files cs acc t = ((acc ++ cs)%list, (t + total_bytes cs)%Z).
Proof.
  revert acc t. induction cs as [|[file_path file_size] cs IH];
    intros acc t Hpos Hn Ht; simpl.
  - now rewrite app_nil_r, Z.add_0_r.
  - inversion Hpos as [|? ? Hc Hpos']; subst. simpl in *.
    assert (Hsum : (0 <= total_bytes cs)%Z).
    { clear -Hpos'. induction Hpos' as [|c cs Hc _ IH]; simpl; lia. }
    destruct (Z.geb_spec (Z.of_nat (List.length acc)) max_files); [lia|].
    destruct (Z.gtb_spec (t + file_size) max_total_size); [lia|].
    rewrite IH; trivial.
    + rewrite <- app_assoc. simpl. f_equal. lia.
    + rewrite length_app. simpl. lia.
    + lia.
Qed.

(** X17. A repository that fits is taken whole: when there are at most
    [max_files] candidates (of sizes that are not negative) and their
    sizes sum to at most 500,000 bytes, every candidate is selected, in
    the order of the sort. *)
Theorem select_files_all (max_files : Z) (code_files : list candidate) :
  Forall (fun c => 0 <= snd c)%Z code_files ->
  (Z.of_nat (List.length code_files) <= max_files)%Z ->
  (total_bytes code_files <= max_total_size)%Z ->
  select_files max_files code_files = (code_files, total_bytes code_files).
Proof.
  intros Hpos Hn Ht. unfold select_files.
  now rewrite select_loop_all.
Qed.

Lemma select_files_all_witness :
  select_files 50 [(Demo.file ["a.py"] 400000 "", 400000%Z);
                   (Demo.file ["b.py"] 100000 "", 100000%Z)]
  = ([(Demo.file ["a.py"] 400000 "", 400000%Z);
      (Demo.file ["b.py"] 100000 "", 100000%Z)], 500000%Z).
Proof.
  apply (select_files_all 50 [(Demo.file ["a.py"] 400000 "", 400000%Z);
                              (Demo.file ["b.py"] 100000 "", 100000%Z)]).
  - repeat constructor; simpl; lia.
  - simpl. lia.
  - vm_compute. discriminate.
Defined.

Lemma take_all (n : nat) (s : string) :
  String.length s <= n -> PyStr.take n s = s.
Proof.
  unfold PyStr.take. revert s.
  induction n as [|n IH]; intros [|c s]; simpl; trivial; try lia.
  intros H. rewrite IH; [trivial | lia].
Qed.

Lemma length_take_exact (n : nat) (s : string) :
  n <= String.length s -> String.length (PyStr.take n s) = n.
Proof.
  unfold PyStr.take. revert s.
  induction n as [|n IH]; intros [|c s]; simpl; trivial; try lia.
  intros H. rewrite IH; [trivial | lia].
Qed.

(** X18. A documentation or configuration file is embedded verbatim up
    to [max_file_size] characters, for a [max_file_size] from 0 to
    [2 ** 63 - 1] (the arguments [f.read] accepts), and the "(truncated)"
    marker is written exactly when its text has at least [max_file_size]
    characters; so a file of exactly [max_file_size] characters is
    embedded whole and still marked as truncated.  Beyond [2 ** 63 - 1]
    the read raises and the section holds the error line instead. *)
Theorem document_section (max_file_size : Z) (file_path : item) (size : Z)
    (whole : string) :
  is_document file_path = true ->
  text file_path = inl whole ->
  let ps := fst (file_section max_file_size (file_path, size)) in
  ((0 <= max_file_size <= 2 ^ 63 - 1)%Z ->
   (In PTruncated ps <-> (max_file_size <= Z.of_nat (String.length whole))%Z)
   /\ In (PText (PyStr.take (Z.to_nat max_file_size) whole)) ps
   /\ ((Z.of_nat (String.length whole) <= max_file_size)%Z ->
       In (PText whole) ps))
  /\ ((2 ^ 63 - 1 < max_file_size)%Z ->
      ps = [PFileHeader (relative_str file_path) file_path;
            PReadError overflow_message]).
Proof.
  intros Hdoc Htext. unfold file_section. rewrite Htext. split.
  - intros Hpos.
    assert (Hfit : fits_ssize max_file_size = true).
    { unfold fits_ssize. apply andb_true_iff. split; apply Z.leb_le; lia. }
    rewrite Hfit, Hdoc. cbn [negb].
    unfold read_text. destruct (Z.ltb_spec max_file_size 0) as [|_]; [lia|].
    cbn [fst].
    assert (Hlen : (Z.of_nat (String.length
                                (PyStr.take (Z.to_nat max_file_size) whole))
                    >= max_file_size)%Z
                   <-> (max_file_size <= Z.of_nat (String.length whole))%Z).
    { destruct (Nat.le_gt_cases (Z.to_nat max_file_size) (String.length whole))
        as [Hle|Hgt].
      - rewrite length_take_exact by exact Hle. lia.
      - rewrite take_all by lia. lia. }
    split; [|split].
    + destruct (Z.geb_spec (Z.of_nat (String.length
                              (PyStr.take (Z.to_nat max_file_size) whole)))
                  max_file_size) as [Hge|Hlt]; simpl.
      * split; [intros _; apply Hlen; lia | intros _; tauto].
      * split; [intros H; intuition discriminate
               | intros H; apply Hlen in H; lia].
    + simpl. tauto.
    + intros Hle. rewrite take_all by lia. simpl. tauto.
  - intros Hbig.
    assert (Hfit : fits_ssize max_file_size = false).
    { unfold fits_ssize. apply andb_false_iff. right. apply Z.leb_gt. lia. }
    now rewrite Hfit.
Qed.

Lemma document_section_witness :
  let readme := Demo.file ["README.md"] 4 "# hi" in
  (In PTruncated (fst (file_section 4 (readme, 4%Z)))
   /\ In (PText "# hi") (fst (file_section 4 (readme, 4%Z))))
  /\ fst (file_section (2 ^ 63) (readme, 4%Z))
     = [PFileHeader "README.md" readme; PReadError overflow_message].
Proof.
  split.
  - destruct (document_section 4 (Demo.file ["README.md"] 4 "# hi") 4 "# hi")
      as [H _]; [reflexivity | reflexivity |].
    destruct H as [H1 [_ H3]]; [lia|].
    split; [apply H1; simpl; lia | apply H3; simpl; lia].
  - destruct (document_section (2 ^ 63) (Demo.file ["README.md"] 4 "# hi") 4
                "# hi") as [_ H]; [reflexivity | reflexivity |].
    apply H. lia.
Defined.

(** X19. Empty repository: when the root exists and the walk yields
    nothing, the value returned is the title, the structure header with
    the root, and a [## Code Files] header announcing 0 files and 0 KB,
    with no directory list and no file section. *)
Theorem extract_empty_repository (fs : fs_view) (target_dir : string)
    (max_files max_file_size : Z) :
  fs target_dir = Some (mk_walk [] None) ->
  extract_repository_content fs target_dir max_files max_file_size
  = "# Repository Structure and Content" ++ PyStr.nl
    ++ PyStr.nl ++ "## Directory Structure" ++ PyStr.nl
    ++ "Root: " ++ target_dir ++ PyStr.nl
    ++ PyStr.nl ++ "## Code Files (0 files included, ~0KB total)" ++ PyStr.nl
  /\ file_sections fs target_dir max_files max_file_size = [].
Proof.
  intros H.
  unfold file_sections, extract_repository_content, extract_run, content_parts,
    get_repository_structure.
  rewrite H. cbn [yielded raised survey_loop collect_code_files list_sort
                  fold_right structure_parts directories app fst snd].
  unfold selection, sort_code_files, select_files.
  cbn [collect_code_files fst list_sort fold_right select_loop read_files
       List.length app section_files].
  split; [|reflexivity].
  unfold render. cbn [map render_part PyStr.join String.concat].
  change (PyStr.of_Z (Z.of_nat 0)) with "0".
  change (PyStr.of_Z (0 / 1024)) with "0".
  rewrite !StrFacts.append_assoc. reflexivity.
Qed.

Lemma extract_empty_repository_witness :
  file_sections (fun _ => Some (mk_walk [] None)) "/tmp/empty" 50 10000 = [].
Proof.
  apply (extract_empty_repository (fun _ => Some (mk_walk [] None))
           "/tmp/empty" 50 10000 eq_refl).
Defined.

(** ** The directory surveyor *)

Lemma survey_loop_spec (repo_parts : list string) (max_depth : Z)
    (items : list item) (fl dl : list string) :
  survey_loop repo_parts max_depth items fl dl
  = ((fl ++ surveyed_files repo_parts max_depth items)%list,
     (dl ++ surveyed_directories repo_parts max_depth items)%list).
Proof.
  unfold surveyed_files, surveyed_directories, surveyed.
  revert fl dl. induction items as [|x items IH]; intros fl dl.
  - simpl. now rewrite !app_nil_r.
  - cbn [survey_loop filter].
    destruct (surveyor_skips repo_parts x); cbn [negb andb]; [apply IH|].
    destruct (_ >? _)%Z; cbn [negb andb]; [apply IH|].
    unfold is_file, is_dir. destruct (kind x); cbn [map];
      rewrite IH, <- ?app_assoc; reflexivity.
Qed.

(** X20. The lists of the surveyor hold the relative paths of exactly the
    walked files, respectively directories, that have no [.git] component
    and at most [max_depth] components below the root: nothing else and
    nothing twice over.  When the walk raises, the lists are these paths in
    the order of the walk, unsorted. *)
Theorem survey_lists_contents (fs : fs_view) (target_dir : string)
    (max_depth : Z) (w : walk) :
  fs target_dir = Some w ->
  let s := fst (get_repository_structure fs target_dir max_depth) in
  let repo_parts := PyPath.parts target_dir in
  Permutation (files s) (surveyed_files repo_parts max_depth (yielded w))
  /\ Permutation (directories s)
       (surveyed_directories repo_parts max_depth (yielded w))
  /\ (raised w <> None ->
      files s = surveyed_files repo_parts max_depth (yielded w)
      /\ directories s = surveyed_directories repo_parts max_depth (yielded w)).
Proof.
  intros Hw. unfold get_repository_structure. rewrite Hw, survey_loop_spec.
  cbn [app]. destruct (raised w); cbn [fst files directories].
  - split; [apply Permutation_refl | split; [apply Permutation_refl|]].
    intros _. now split.
  - split; [apply list_sort_perm | split; [apply list_sort_perm|]].
    congruence.
Qed.

Lemma survey_lists_contents_witness :
  let s := fst (get_repository_structure Demo.fs "/tmp/repo" 1) in
  Permutation (files s)
    ["random.py"; "README.md"; "setup.py"; "main.py"; "big.py"]
  /\ Permutation (directories s) ["node_modules"; "pkg"].
Proof.
  destruct (survey_lists_contents Demo.fs "/tmp/repo" 1 Demo.repo_walk eq_refl)
    as [H1 [H2 _]].
  split; [exact H1 | exact H2].
Defined.

(** ** The structural extractor *)

Module ExtractorFacts.

Lemma split_nonempty (s : string) : PyStr.split PyStr.nl_char s <> [].
Proof.
  destruct s as [|c s]; simpl; [discriminate|].
  destruct (Ascii.eqb c PyStr.nl_char); [discriminate|].
  destruct (PyStr.split PyStr.nl_char s); discriminate.
Qed.

Lemma join_head (c : ascii) (h : string) (t : list string) :
  PyStr.join PyStr.nl (String c h :: t) = String c (PyStr.join PyStr.nl (h :: t)).
Proof. destruct t; reflexivity. Qed.

(** Joining the split lines gives the content back. *)
Lemma join_split (s : string) :
  PyStr.join PyStr.nl (PyStr.split PyStr.nl_char s) = s.
Proof.
  induction s as [|c s IH]; trivial.
  cbn [PyStr.split]. pose proof (split_nonempty s) as Hne.
  destruct (Ascii.eqb_spec c PyStr.nl_char) as [->|_].
  - destruct (PyStr.split PyStr.nl_char s) as [|h t]; [congruence|].
    rewrite <- IH. reflexivity.
  - destruct (PyStr.split PyStr.nl_char s) as [|h t]; [congruence|].
    now rewrite join_head, IH.
Qed.

Lemma length_join_le (l1 l2 : list string) :
  list_sum (map String.length l1) <= list_sum (map String.length l2) ->
  List.length l1 <= List.length l2 ->
  String.length (PyStr.join PyStr.nl l1) <= String.length (PyStr.join PyStr.nl l2).
Proof.
  intros Hs Hl. destruct l1 as [|x l1]; [simpl; lia|].
  destruct l2 as [|y l2]; [simpl in Hl; lia|].
  pose proof (SplitJoin.length_join (x :: l1)) as L1.
  pose proof (SplitJoin.length_join (y :: l2)) as L2.
  assert (H1 : x :: l1 <> []) by discriminate.
  assert (H2 : y :: l2 <> []) by discriminate.
  specialize (L1 H1). specialize (L2 H2). lia.
Qed.

Lemma length_join_filter (p : string -> bool) (l : list string) :
  String.length (PyStr.join PyStr.nl (filter p l))
  <= String.length (PyStr.join PyStr.nl l).
Proof.
  apply length_join_le; [apply SplitJoin.list_sum_filter | apply filter_length_le].
Qed.

Lemma sum_skipn (m : nat) (l : list nat) : list_sum (skipn m l) <= list_sum l.
Proof.
  revert l. induction m as [|m IH]; intros [|x l]; simpl; trivial.
  specialize (IH l). lia.
Qed.

Lemma sum_firstn_skipn (k m : nat) (l : list nat) :
  k <= m -> list_sum (firstn k l) + list_sum (skipn m l) <= list_sum l.
Proof.
  revert m l. induction k as [|k IH]; intros m l Hkm.
  - simpl. apply sum_skipn.
  - destruct m as [|m]; [lia|]. destruct l as [|x l]; simpl; trivial.
    specialize (IH m l). lia.
Qed.

(** The head, the three marker lines and the tail, joined, are at most
    39 characters longer than the whole. *)
Lemma length_head_tail (l : list string) :
  50 < List.length l ->
  String.length
    (PyStr.join PyStr.nl
       (firstn 25 l ++ ["..."; "# Content truncated for brevity"; "..."]
        ++ skipn (List.length l - 25) l)%list)
  <= String.length (PyStr.join PyStr.nl l) + 39.
Proof.
  intros Hlen.
  set (X := (firstn 25 l ++ ["..."; "# Content truncated for brevity"; "..."]
             ++ skipn (List.length l - 25) l)%list).
  assert (HX : X <> []).
  { subst X. destruct (firstn 25 l); discriminate. }
  assert (Hl : l <> []) by (intros ->; simpl in Hlen; lia).
  pose proof (SplitJoin.length_join X HX) as L1.
  pose proof (SplitJoin.length_join l Hl) as L2.
  assert (HlenX : List.length X = 53).
  { subst X. rewrite !length_app, length_firstn, length_skipn.
    cbn [List.length]. lia. }
  assert (HsumX : list_sum (map String.length X)
                  <= list_sum (map String.length l) + 37).
  { subst X. rewrite !map_app, !list_sum_app.
    rewrite <- firstn_map, <- skipn_map.
    pose proof (sum_firstn_skipn 25 (List.length l - 25)
                  (map String.length l)) as Hs.
    change (list_sum (map String.length
                        ["..."; "# Content truncated for brevity"; "..."]))
      with 37.
    lia. }
  lia.
Qed.

Lemma length_take_le (n : nat) (s : string) :
  String.length (PyStr.take n s) <= String.length s.
Proof.
  unfold PyStr.take. revert s.
  induction n as [|n IH]; intros [|c s]; simpl; try lia.
  specialize (IH s). lia.
Qed.

Lemma length_finish (content : string) (extracted : list string) (k : nat) :
  String.length (PyStr.join PyStr.nl extracted) <= String.length content + k ->
  String.length (finish_extraction content extracted)
  <= String.length content + k + 54.
Proof.
  intros H. unfold finish_extraction.
  assert (Ht : String.length (truncate_content content)
               <= String.length content + k + 54).
  { unfold truncate_content. rewrite StrFacts.length_append.
    change (String.length truncated_marker) with 28.
    pose proof (length_take_le CODE_STRUCTURE_EXTRACTION_THRESHOLD content). lia. }
  destruct extracted as [|x l]; trivial.
  destruct (_ <? _); trivial.
  rewrite StrFacts.length_append.
  change (String.length omitted_marker) with 54. lia.
Qed.

Lemma filter_none {A : Type} (p : A -> bool) (l : list A) :
  (forall x, In x l -> p x = false) -> filter p l = [].
Proof.
  induction l as [|x l IH]; simpl; trivial. intros H.
  rewrite (H x) by now left. apply IH. intros y Hy. apply H. now right.
Qed.

End ExtractorFacts.

(** X21. Extraction failure falls back to raw truncation: for an
    extension of the three keyword families and content of 3000
    characters or more in which no line starts (once stripped) with a
    keyword prefix of the family, the result is the first 3000 characters
    followed by the marker "... (truncated for brevity)" on a line of its
    own, 3028 characters in all. *)
Theorem extract_no_keyword_line (content file_extension : string)
    (prefixes : list string) :
  family_prefixes file_extension = Some prefixes ->
  3000 <= String.length content ->
  (forall line, In line (PyStr.split PyStr.nl_char content) ->
                keyword_line prefixes line = false) ->
  _extract_code_structure content file_extension = truncate_content content
  /\ String.length (_extract_code_structure content file_extension) = 3028.
Proof.
  intros Hfam Hlen Hnone.
  assert (Hout : _extract_code_structure content file_extension
                 = truncate_content content).
  { unfold _extract_code_structure, family_prefixes in *.
    destruct (Nat.ltb_spec (String.length content)
                CODE_STRUCTURE_EXTRACTION_THRESHOLD) as [Hlt|_].
    { unfold CODE_STRUCTURE_EXTRACTION_THRESHOLD in Hlt. lia. }
    destruct (PyStr.mem file_extension [".py"]);
      [|destruct (PyStr.mem file_extension [".js"; ".jsx"; ".ts"; ".tsx"]);
        [|destruct (PyStr.mem file_extension [".java"; ".cs"; ".go"; ".rs"]);
          [|discriminate]]];
      inversion Hfam; subst prefixes;
      now rewrite (ExtractorFacts.filter_none _ _ Hnone). }
  split; [exact Hout|]. rewrite Hout. unfold truncate_content.
  rewrite StrFacts.length_append, length_take_exact by exact Hlen.
  reflexivity.
Qed.

Lemma extract_no_keyword_line_witness :
  let content := Scenario.hashes 3500 in
  _extract_code_structure content ".ts" = truncate_content content
  /\ String.length (_extract_code_structure content ".ts") = 3028.
Proof.
  apply (extract_no_keyword_line (Scenario.hashes 3500) ".ts" js_prefixes).
  - reflexivity.
  - vm_compute. repeat constructor.
  - intros line H. vm_compute in H. destruct H as [<-|[]]. vm_compute. reflexivity.
Defined.

(** X22. Extraction never lengthens content by much: the result of
    [_extract_code_structure] is at most 54 characters longer than the
    content for an extension of the three keyword families (the trailing
    marker), and at most 93 characters longer for any other extension
    (the three marker lines and the trailing marker). *)
Theorem extract_code_structure_length (content file_extension : string) :
  String.length (_extract_code_structure content file_extension)
  <= String.length content
     + match family_prefixes file_extension with
       | Some _ => 54
       | None => 93
       end.
Proof.
  unfold _extract_code_structure, family_prefixes.
  destruct (_ <? CODE_STRUCTURE_EXTRACTION_THRESHOLD);
    [destruct (PyStr.mem _ _); [lia|];
     destruct (PyStr.mem _ _); [lia|];
     destruct (PyStr.mem _ _); lia|].
  assert (Hfilter : forall p,
             String.length
               (finish_extraction content
                  (filter p (PyStr.split PyStr.nl_char content)))
             <= String.length content + 54).
  { intros p.
    pose proof (ExtractorFacts.length_finish content
                  (filter p (PyStr.split PyStr.nl_char content)) 0) as H.
    rewrite !Nat.add_0_r in H. apply H.
    pose proof (ExtractorFacts.length_join_filter p
                  (PyStr.split PyStr.nl_char content)) as HF.
    rewrite ExtractorFacts.join_split in HF. exact HF. }
  destruct (PyStr.mem file_extension [".py"]); [apply Hfilter|].
  destruct (PyStr.mem file_extension [".js"; ".jsx"; ".ts"; ".tsx"]);
    [apply Hfilter|].
  destruct (PyStr.mem file_extension [".java"; ".cs"; ".go"; ".rs"]);
    [apply Hfilter|].
  unfold TRUNCATE_LINES_HEAD, TRUNCATE_LINES_TAIL.
  destruct (Nat.ltb_spec (25 + 25) (List.length (PyStr.split PyStr.nl_char content)))
    as [Hlt|_]; [|lia].
  pose proof (ExtractorFacts.length_finish content
                (firstn 25 (PyStr.split PyStr.nl_char content)
                 ++ ["..."; "# Content truncated for brevity"; "..."]
                 ++ skipn (List.length (PyStr.split PyStr.nl_char content) - 25)
                      (PyStr.split PyStr.nl_char content))%list 39) as H.
  replace (String.length content + 93) with (String.length content + 39 + 54)
    by lia.
  apply H.
  pose proof (ExtractorFacts.length_head_tail
                (PyStr.split PyStr.nl_char content) Hlt) as HT.
  rewrite ExtractorFacts.join_split in HT. exact HT.
Qed.

(** ** More on the surveyor and the priority tiers *)

(** X24. The surveyor answers with an empty summary, and does not fail,
    when the root does not exist; and it records nothing when [max_depth]
    is negative. *)
Theorem survey_empty (fs : fs_view) (target_dir : string) (max_depth : Z) :
  fs target_dir = None \/ (max_depth < 0)%Z ->
  let s := fst (get_repository_structure fs target_dir max_depth) in
  root s = target_dir /\ files s = [] /\ directories s = [].
Proof.
  intros H. unfold get_repository_structure.
  destruct (fs target_dir) as [w|] eqn:Hw; [|now repeat split].
  destruct H as [H|H]; [discriminate|].
  rewrite survey_loop_spec. cbn [app].
  assert (Hf : surveyed_files (PyPath.parts target_dir) max_depth (yielded w) = []).
  { unfold surveyed_files. rewrite ExtractorFacts.filter_none; trivial.
    intros x _. unfold surveyed.
    destruct (Z.gtb_spec (Z.of_nat (List.length (rel_parts x))) max_depth);
      [|lia].
    now rewrite andb_false_r. }
  assert (Hd : surveyed_directories (PyPath.parts target_dir) max_depth
                 (yielded w) = []).
  { unfold surveyed_directories. rewrite ExtractorFacts.filter_none; trivial.
    intros x _. unfold surveyed.
    destruct (Z.gtb_spec (Z.of_nat (List.length (rel_parts x))) max_depth);
      [|lia].
    now rewrite andb_false_r. }
  rewrite Hf, Hd. now destruct (raised w).
Qed.

Lemma survey_empty_witness :
  let s := fst (get_repository_structure Demo.fs "/nonexistent" 3) in
  root s = "/nonexistent" /\ files s = [] /\ directories s = [].
Proof.
  apply (survey_empty Demo.fs "/nonexistent" 3). left. reflexivity.
Defined.

Module PathFacts.

Lemma contains_app_r (a b needle : string) :
  PyStr.contains b needle = true -> PyStr.contains (a ++ b) needle = true.
Proof.
  intros H. induction a as [|c a IH]; trivial.
  cbn [append PyStr.contains]. rewrite IH. apply orb_true_r.
Qed.

Lemma join_last (sep : string) (l : list string) :
  l <> [] -> exists pre, PyStr.join sep l = pre ++ last l "".
Proof.
  unfold PyStr.join. induction l as [|x l IH]; [congruence | intros _].
  destruct l as [|y l].
  - now exists "".
  - destruct IH as [pre E]; [discriminate|].
    exists (x ++ sep ++ pre).
    change (String.concat sep (x :: y :: l))
      with (x ++ sep ++ String.concat sep (y :: l)).
    rewrite E. change (last (x :: y :: l) "") with (last (y :: l) "").
    now rewrite !StrFacts.append_assoc.
Qed.

(** The string of a path ends with its last component. *)
Lemma to_str_last (ps : list string) :
  ps <> [] -> exists pre, PyPath.to_str ps = pre ++ last ps "".
Proof.
  destruct ps as [|p rest]; [congruence | intros _].
  unfold PyPath.to_str. destruct (PyStr.startswith p "/").
  - destruct rest as [|r rest].
    + exists "". simpl. now rewrite StrFacts.append_nil_r.
    + destruct (join_last "/" (r :: rest)) as [pre E]; [discriminate|].
      exists (p ++ pre). rewrite E.
      change (last (p :: r :: rest) "") with (last (r :: rest) "").
      now rewrite StrFacts.append_assoc.
  - apply join_last. discriminate.
Qed.

Lemma last_app (a b : list string) :
  b <> [] -> last (a ++ b) "" = last b "".
Proof.
  intros Hb. induction a as [|x a IH]; trivial.
  cbn [app]. destruct (a ++ b)%list eqn:E.
  - destruct a; simpl in E; [congruence | discriminate].
  - rewrite <- IH. reflexivity.
Qed.

(** What the name contains, the path string contains. *)
Lemma name_in_item_str (repo_parts : list string) (it : item) (needle : string) :
  PyStr.contains (PyStr.lower (item_name it)) needle = true ->
  PyStr.contains (PyStr.lower (item_str repo_parts it)) needle = true.
Proof.
  unfold item_name, item_str, item_parts. intros H.
  destruct (rel_parts it) as [|r rest] eqn:E.
  - simpl in H. destruct needle; [|discriminate].
    now destruct (PyStr.lower (PyPath.to_str (repo_parts ++ []))).
  - destruct (to_str_last (repo_parts ++ r :: rest)) as [pre Hpre].
    { destruct repo_parts; discriminate. }
    rewrite Hpre, last_app by discriminate.
    rewrite StrFacts.lower_app. now apply contains_app_r.
Qed.

End PathFacts.

(** X25. The tests for "src" and "app" of [file_priority] are substring
    tests on the whole lowercased path, file name included: a file whose
    lowercase name contains "src" or "app" (such as [wrapper.py] or
    [Mapper.java]) is of tier 3 or better wherever it lies, and never of
    the documentation, configuration, test or default tier. *)
Theorem name_substring_tier (repo_parts : list string) (file_path : item)
    (file_size : Z) :
  PyStr.contains (PyStr.lower (item_name file_path)) "src"
  || PyStr.contains (PyStr.lower (item_name file_path)) "app" = true ->
  (tier (file_priority repo_parts (file_path, file_size)) <= 3)%Z.
Proof.
  intros H.
  assert (H' : PyStr.contains (PyStr.lower (item_str repo_parts file_path)) "src"
               || PyStr.contains (PyStr.lower (item_str repo_parts file_path)) "app"
               = true).
  { apply orb_true_iff in H. apply orb_true_iff.
    destruct H as [H|H]; [left | right]; now apply PathFacts.name_in_item_str. }
  unfold file_priority.
  destruct (PyStr.contains _ "readme"); [cbn; lia|].
  destruct (PyStr.mem _ _); [cbn; lia|].
  destruct (PyStr.mem _ _); [cbn; lia|].
  rewrite H'. cbn. lia.
Qed.

Lemma name_substring_tier_witness :
  (tier (file_priority (PyPath.parts "/tmp/repo")
           (Demo.file ["lib"; "Mapper.java"] 10 "", 10%Z)) <= 3)%Z.
Proof.
  apply (name_substring_tier (PyPath.parts "/tmp/repo")
           (Demo.file ["lib"; "Mapper.java"] 10 "") 10).
  reflexivity.
Defined.

(** ** C10: the order of the walk *)

Module OrderFacts.

(** Two sorted lists with the same elements are equal, when the order is
    antisymmetric on these elements. *)
Lemma sorted_perm_eq {A : Type} (R : A -> A -> Prop) (l1 l2 : list A) :
  (forall x y, In x l1 -> In y l1 -> R x y -> R y x -> x = y) ->
  StronglySorted R l1 -> StronglySorted R l2 -> Permutation l1 l2 -> l1 = l2.
Proof.
  revert l2. induction l1 as [|x l1 IH]; intros l2 Hanti S1 S2 P.
  - apply Permutation_nil in P. now subst.
  - destruct l2 as [|y l2];
      [apply Permutation_sym, Permutation_nil in P; discriminate|].
    inversion S1 as [|? ? S1' F1]; inversion S2 as [|? ? S2' F2]; subst.
    assert (E : x = y).
    { assert (Hy : In y (x :: l1))
        by (apply (Permutation_in _ (Permutation_sym P)); now left).
      assert (Hx : In x (y :: l2)) by (apply (Permutation_in _ P); now left).
      destruct Hy as [Hy|Hy]; [exact Hy|].
      destruct Hx as [Hx|Hx]; [now symmetry|].
      rewrite Forall_forall in F1, F2.
      apply Hanti; [now left | now right | now apply F1 | now apply F2]. }
    subst y. f_equal. apply IH; trivial.
    + intros a b Ha Hb. apply Hanti; now right.
    + now apply Permutation_cons_inv in P.
Qed.

Lemma str_lt_antisym (a b : string) :
  PyStr.lt b a = false -> PyStr.lt a b = false -> a = b.
Proof.
  unfold PyStr.lt, String.ltb. rewrite (String.compare_antisym b a).
  destruct (String.compare a b) eqn:E; simpl; try discriminate.
  intros _ _. now apply String.compare_eq_iff.
Qed.

Lemma key_lt_antisym (k1 k2 : priority_key) :
  key_lt k2 k1 = false -> key_lt k1 k2 = false -> k1 = k2.
Proof.
  destruct k1 as [[t1 s1] n1], k2 as [[t2 s2] n2]. unfold key_lt.
  destruct (Z.eqb_spec t2 t1), (Z.eqb_spec t1 t2); subst; try lia.
  destruct (Z.eqb_spec s2 s1), (Z.eqb_spec s1 s2); subst; try lia.
  intros H1 H2. now rewrite (str_lt_antisym n1 n2 H1 H2).
Qed.

(** Sorting strings forgets the order they came in. *)
Lemma sort_strings_perm (l1 l2 : list string) :
  Permutation l1 l2 ->
  list_sort PyStr.lt (fun s => s) l1 = list_sort PyStr.lt (fun s => s) l2.
Proof.
  intros P. apply (sorted_perm_eq (key_le PyStr.lt (fun s => s))).
  - intros x y _ _. apply str_lt_antisym.
  - apply list_sort_sorted; [exact StrOrder.lt_asym | exact StrOrder.le_trans].
  - apply list_sort_sorted; [exact StrOrder.lt_asym | exact StrOrder.le_trans].
  - rewrite !list_sort_perm. exact P.
Qed.

Lemma NoDup_map_injective {A B : Type} (f : A -> B) (l : list A) (x y : A) :
  NoDup (map f l) -> In x l -> In y l -> f x = f y -> x = y.
Proof.
  induction l as [|a l IH]; simpl; [intros _ []|].
  intros Hnd Hx Hy E. inversion Hnd as [|? ? Ha Hnd']; subst.
  destruct Hx as [->|Hx], Hy as [->|Hy]; trivial.
  - exfalso. apply Ha. rewrite E. now apply in_map.
  - exfalso. apply Ha. rewrite <- E. now apply in_map.
  - now apply IH.
Qed.

(** Sorting candidates with pairwise distinct keys forgets the order they
    came in. *)
Lemma sort_code_files_perm (repo_parts : list string)
    (l1 l2 : list candidate) :
  NoDup (map (file_priority repo_parts) l1) ->
  Permutation l1 l2 ->
  sort_code_files repo_parts l1 = sort_code_files repo_parts l2.
Proof.
  intros Hnd P. unfold sort_code_files.
  apply (sorted_perm_eq (key_le key_lt (file_priority repo_parts))).
  - intros x y Hx Hy Hxy Hyx.
    apply (NoDup_map_injective (file_priority repo_parts) l1); trivial.
    + now apply list_sort_In in Hx.
    + now apply list_sort_In in Hy.
    + now apply key_lt_antisym.
  - apply list_sort_sorted; [exact key_lt_asym | exact key_le_trans].
  - apply list_sort_sorted; [exact key_lt_asym | exact key_le_trans].
  - rewrite !list_sort_perm. exact P.
Qed.

Lemma filter_perm {A : Type} (p : A -> bool) (l1 l2 : list A) :
  Permutation l1 l2 -> Permutation (filter p l1) (filter p l2).
Proof.
  induction 1 as [|x l1 l2 P IH|x y l|l1 l2 l3 P1 IH1 P2 IH2]; simpl.
  - constructor.
  - destruct (p x); [now constructor | exact IH].
  - destruct (p x), (p y); try apply Permutation_refl. apply perm_swap.
  - now transitivity (filter p l2).
Qed.

Lemma collect_cons (repo_parts : list string) (max_file_size : Z)
    (x : item) (l : list item) :
  fst (collect_code_files repo_parts max_file_size (x :: l))
  = (fst (collect_code_files repo_parts max_file_size [x])
     ++ fst (collect_code_files repo_parts max_file_size l))%list.
Proof.
  cbn [collect_code_files].
  destruct (collect_code_files repo_parts max_file_size l) as [cf evs].
  destruct (in_skip_directory repo_parts x); trivial.
  destruct (is_skip_file x); trivial.
  destruct (is_file x && PyStr.mem (item_suffix x) code_extensions); trivial.
  destruct (st_size x) as [sz|]; [destruct (sz <=? max_file_size)%Z|]; trivial.
Qed.

(** The candidates of two listings of the same entries are the same, up
    to their order. *)
Lemma collect_perm (repo_parts : list string) (max_file_size : Z)
    (l1 l2 : list item) :
  Permutation l1 l2 ->
  Permutation (fst (collect_code_files repo_parts max_file_size l1))
              (fst (collect_code_files repo_parts max_file_size l2)).
Proof.
  induction 1 as [|x l1 l2 P IH|x y l|l1 l2 l3 P1 IH1 P2 IH2].
  - apply Permutation_refl.
  - rewrite (collect_cons _ _ x l1), (collect_cons _ _ x l2).
    now apply Permutation_app_head.
  - rewrite (collect_cons _ _ y (x :: l)), (collect_cons _ _ x l),
      (collect_cons _ _ x (y :: l)), (collect_cons _ _ y l).
    apply Permutation_app_swap_app.
  - now transitivity (fst (collect_code_files repo_parts max_file_size l2)).
Qed.

(** The summary of the surveyor does not depend on the order of a walk
    that raises nothing. *)
Lemma survey_perm (fs1 fs2 : fs_view) (target_dir : string) (max_depth : Z)
    (w1 w2 : walk) :
  fs1 target_dir = Some w1 -> fs2 target_dir = Some w2 ->
  Permutation (yielded w1) (yielded w2) ->
  raised w1 = None -> raised w2 = None ->
  fst (get_repository_structure fs1 target_dir max_depth)
  = fst (get_repository_structure fs2 target_dir max_depth).
Proof.
  intros H1 H2 P R1 R2. unfold get_repository_structure.
  rewrite H1, H2, !survey_loop_spec, R1, R2. cbn [app fst].
  unfold surveyed_files, surveyed_directories.
  f_equal; apply sort_strings_perm, Permutation_map, filter_perm, P.
Qed.

(** The parts of a run whose walk raised nothing. *)
Lemma content_parts_fst (fs : fs_view) (target_dir : string) (w : walk)
    (max_files max_file_size : Z) :
  raised w = None ->
  fst (content_parts fs target_dir w max_files max_file_size)
  = (structure_parts target_dir (fst (get_repository_structure fs target_dir 2))
     ++ PCodeHeader
          (List.length
             (fst (selection (PyPath.parts target_dir) max_files max_file_size
                     (yielded w))))
          (snd (selection (PyPath.parts target_dir) max_files max_file_size
                  (yielded w)) / 1024)
     :: fst (read_files max_file_size
               (fst (selection (PyPath.parts target_dir) max_files
                       max_file_size (yielded w)))))%list.
Proof.
  intros Hr. unfold content_parts.
  destruct (get_repository_structure fs target_dir 2) as [s ev_survey].
  destruct (collect_code_files (PyPath.parts target_dir) max_file_size (yielded w))
    as [cf ev_stat].
  rewrite Hr.
  destruct (selection (PyPath.parts target_dir) max_files max_file_size
              (yielded w)) as [code_files total_size].
  cbn [fst snd]. now destruct (read_files max_file_size code_files).
Qed.

End OrderFacts.

(** C10, as the code has it.  Two calls with the same arguments on the
    same entries return the same string, in whatever order the filesystem
    lists the entries for each call, when both walks raise nothing and no
    two candidates have the same priority key.  (Candidates with the same
    key are written in the order of the walk.) *)
Theorem extract_order_independent (fs1 fs2 : fs_view) (target_dir : string)
    (max_files max_file_size : Z) (w1 w2 : walk) :
  fs1 target_dir = Some w1 ->
  fs2 target_dir = Some w2 ->
  Permutation (yielded w1) (yielded w2) ->
  raised w1 = None ->
  raised w2 = None ->
  NoDup (map (file_priority (PyPath.parts target_dir))
           (fst (collect_code_files (PyPath.parts target_dir) max_file_size
                   (yielded w1)))) ->
  extract_repository_content fs1 target_dir max_files max_file_size
  = extract_repository_content fs2 target_dir max_files max_file_size
  /\ file_sections fs1 target_dir max_files max_file_size
     = file_sections fs2 target_dir max_files max_file_size.
Proof.
  intros H1 H2 P R1 R2 Hnd.
  assert (Hsel : selection (PyPath.parts target_dir) max_files max_file_size
                   (yielded w1)
                 = selection (PyPath.parts target_dir) max_files max_file_size
                     (yielded w2)).
  { unfold selection. f_equal.
    apply OrderFacts.sort_code_files_perm; [exact Hnd|].
    now apply OrderFacts.collect_perm. }
  assert (Hparts : fst (content_parts fs1 target_dir w1 max_files max_file_size)
                   = fst (content_parts fs2 target_dir w2 max_files
                            max_file_size)).
  { rewrite !OrderFacts.content_parts_fst by assumption.
    now rewrite Hsel,
      (OrderFacts.survey_perm fs1 fs2 target_dir 2 w1 w2 H1 H2 P R1 R2). }
  unfold file_sections, extract_repository_content, extract_run.
  rewrite H1, H2.
  destruct (content_parts fs1 target_dir w1 max_files max_file_size)
    as [ps1 evs1].
  destruct (content_parts fs2 target_dir w2 max_files max_file_size)
    as [ps2 evs2].
  cbn [fst] in *. now subst ps2.
Qed.

Lemma extract_order_independent_witness :
  extract_repository_content Demo.fs "/tmp/repo" 50 10000
  = extract_repository_content Cases.reversed_fs "/tmp/repo" 50 10000
  /\ file_sections Demo.fs "/tmp/repo" 50 10000
     = file_sections Cases.reversed_fs "/tmp/repo" 50 10000.
Proof.
  apply (extract_order_independent Demo.fs Cases.reversed_fs "/tmp/repo"
           50 10000 Demo.repo_walk
           (mk_walk (rev (yielded Demo.repo_walk)) None)).
  - reflexivity.
  - reflexivity.
  - apply Permutation_rev.
  - reflexivity.
  - reflexivity.
  - vm_compute.
    repeat (constructor; [simpl; intuition discriminate|]). constructor.
Defined.

(** C10 as stated fails: the same four entries, listed with directory [a]
    first and with directory [b] first, give two different strings.  Both
    readme files have the key (0, 0, "readme.md") and the stable sort
    leaves them in the order of the walk. *)
Lemma same_tree_different_output :
  let fs1 : fs_view := fun _ => Some Cases.a_first in
  let fs2 : fs_view := fun _ => Some Cases.b_first in
  Permutation (yielded Cases.a_first) (yielded Cases.b_first)
  /\ file_priority (PyPath.parts "/tmp/r") (Cases.readme_a, 5%Z)
     = file_priority (PyPath.parts "/tmp/r") (Cases.readme_b, 5%Z)
  /\ file_sections fs1 "/tmp/r" 50 10000 = [Cases.readme_a; Cases.readme_b]
  /\ file_sections fs2 "/tmp/r" 50 10000 = [Cases.readme_b; Cases.readme_a]
  /\ extract_repository_content fs1 "/tmp/r" 50 10000
     <> extract_repository_content fs2 "/tmp/r" 50 10000.
Proof.
  split; [|split; [reflexivity | split; [reflexivity | split; [reflexivity|]]]].
  - exact (Permutation_app_comm
             [Demo.dir ["a"]; Cases.readme_a] [Demo.dir ["b"]; Cases.readme_b]).
  - apply String.eqb_neq. vm_compute. reflexivity.
Qed.
